(** * Box collection optimizer: scoring engine, score cache and visit ledger

    A shallow embedding of [box_collection_optimizer.py].

    Conventions of the embedding.
    - Python floats are read as real numbers ([R]); [np.exp] is the real
      exponential.  [NaN] cells of the data frame are [None].
    - An exception that leaves a method is the [Raise] outcome of [result].
    - The object [self] is the record [Optimizer]; a method that mutates
      [self] returns the new record.
    - [datetime.now(self.timezone)] is an input of every method that reads
      the clock: one reading [Clock] per call.
    - The append-only audit file [visits_log.csv] is written and never read
      back; it is not part of the optimizer state and is left out. *)

From Stdlib Require Import ZArith Reals Lra Lia.
From Stdlib Require Import DecimalString DecimalZ DecimalPos.
From stdpp Require Import gmap strings list.
From stdpp Require Import sorting.

(** ** Python outcomes *)

Inductive exn : Set := AttributeError | ValueError.

Inductive result (A : Type) : Type :=
| Ok (a : A)
| Raise (e : exn).
Arguments Ok {A} a.
Arguments Raise {A} e.

#[global] Instance result_ret : MRet result := @Ok.
#[global] Instance result_bind : MBind result := λ A B f r,
  match r with Ok a => f a | Raise e => Raise e end.

(** [str(k)] and [int(s)] on decimal integer text.  [py_int] accepts an
    optional minus sign followed by digits and is [None] ([ValueError])
    otherwise.  Python's [int] accepts more: a plus sign, surrounding
    whitespace, underscores between digits and the other decimal digits of
    Unicode, none of which [json.dump] writes for a key of [save_state].
    Where [py_int] returns a number [int] returns the same one, and on
    text that begins with a letter both fail. *)
Definition py_str (k : Z) : string := NilZero.string_of_int (Z.to_int k).
Definition py_int (s : string) : option Z :=
  Z.of_int <$> NilZero.int_of_string s.

(** Text that begins with an ASCII letter; [int] raises [ValueError] on
    it. *)
Definition is_ascii_letter (a : Ascii.ascii) : bool :=
  let n := Ascii.nat_of_ascii a in
  ((65 <=? n) && (n <=? 90) || (97 <=? n) && (n <=? 122))%nat.

Definition starts_with_letter (s : string) : bool :=
  match s with
  | String a _ => is_ascii_letter a
  | EmptyString => false
  end.

(** [f'semaine_{i}'] *)
Definition week_col (i : Z) : string := "semaine_" +:+ py_str i.

(** ** Time *)

Module Time.

(** A [tzinfo] object with the UTC offset it reports, in microseconds.
    [PytzZone] is an instance handed out by pytz, [FixedOffset] the
    [datetime.timezone] built by [datetime.fromisoformat]. *)
Inductive TzInfo : Set :=
| PytzZone (utcoffset : Z)
| FixedOffset (utcoffset : Z).

Definition utcoffset (tz : TzInfo) : Z :=
  match tz with PytzZone o => o | FixedOffset o => o end.

(** A [datetime]: the wall-clock fields as microseconds since the origin
    of the calendar, and the attached [tzinfo] ([None] when naive). *)
Record datetime : Set := { wall_us : Z; tzinfo : option TzInfo }.

(** [dt.replace(tzinfo=tz)] *)
Definition replace_tzinfo (dt : datetime) (tz : TzInfo) : datetime :=
  {| wall_us := wall_us dt; tzinfo := Some tz |}.

(** One reading of the clock: wall-clock fields in the zone and the offset
    in force. *)
Record Clock : Set := { clk_wall_us : Z; clk_utcoffset : Z }.

(** [datetime.now(tz)] *)
Definition datetime_now (clk : Clock) : datetime :=
  {| wall_us := clk_wall_us clk;
     tzinfo := Some (PytzZone (clk_utcoffset clk)) |}.

Definition us_per_day : Z := 86400 * 1000000.

(** [(a - b).days] for [a] aware of offset [oa] and [b] aware of offset
    [ob]: the timedelta is normalised with a floor. *)
Definition timedelta_days (a : Z) (oa : Z) (b : Z) (ob : Z) : Z :=
  ((a - oa) - (b - ob)) `div` us_per_day.

(** The text produced by [isoformat()]: the wall-clock fields to the
    microsecond and the UTC offset when there is one. *)
Record iso_text : Set := { iso_wall_us : Z; iso_offset : option Z }.

Definition isoformat (dt : datetime) : iso_text :=
  {| iso_wall_us := wall_us dt; iso_offset := utcoffset <$> tzinfo dt |}.

Definition fromisoformat (t : iso_text) : datetime :=
  {| wall_us := iso_wall_us t; tzinfo := FixedOffset <$> iso_offset t |}.

End Time.
Import Time.

(** ** Data model *)

(** One row of [self.df]. *)
Record BoxRow : Type := {
  n_boite : Z;
  adresse : string;
  commune : string;
  cp : string;
  conteneur : string;
  volume_moyen : option R;
  semaines : gmap string R
}.

(** An entry of [self.visit_history[box_id]]. *)
Record VisitRecord : Type := {
  date : iso_text;
  fill_level : option R;
  visit_expected_fill : R
}.

(** An entry of [self._score_cache]. *)
Record Bundle : Type := {
  fill_score : R;
  urgency_score : R;
  equity_score : R;
  expected_fill : R;
  profitability_score : R;
  days_since_last_visit : option Z
}.

(** [self].  A key of [last_visit] bound to [None] is a key the dictionary
    holds with the Python value [None]. *)
Record Optimizer : Type := {
  df : list BoxRow;
  week_columns : list string;
  last_visit : gmap Z (option datetime);
  visit_history : gmap Z (list VisitRecord);
  _score_cache : gmap Z Bundle;
  _cache_valid : bool;
  timezone : TzInfo
}.

Definition set_df (s : Optimizer) (d : list BoxRow) : Optimizer :=
  {| df := d; week_columns := week_columns s; last_visit := last_visit s;
     visit_history := visit_history s; _score_cache := _score_cache s;
     _cache_valid := _cache_valid s; timezone := timezone s |}.

Definition set_last_visit (s : Optimizer) (m : gmap Z (option datetime))
  : Optimizer :=
  {| df := df s; week_columns := week_columns s; last_visit := m;
     visit_history := visit_history s; _score_cache := _score_cache s;
     _cache_valid := _cache_valid s; timezone := timezone s |}.

Definition set_visit_history (s : Optimizer) (m : gmap Z (list VisitRecord))
  : Optimizer :=
  {| df := df s; week_columns := week_columns s; last_visit := last_visit s;
     visit_history := m; _score_cache := _score_cache s;
     _cache_valid := _cache_valid s; timezone := timezone s |}.

Definition set_cache (s : Optimizer) (c : gmap Z Bundle) (v : bool)
  : Optimizer :=
  {| df := df s; week_columns := week_columns s; last_visit := last_visit s;
     visit_history := visit_history s; _score_cache := c;
     _cache_valid := v; timezone := timezone s |}.

(** [self.df[self.df['n_boite'] == box_id]] *)
Definition box_rows (s : Optimizer) (box_id : Z) : list BoxRow :=
  filter (λ r, n_boite r = box_id) (df s).

(** [box_id in self.df['n_boite'].values] *)
Definition in_catalog (s : Optimizer) (box_id : Z) : bool :=
  bool_decide (box_id ∈ map n_boite (df s)).

(** [week_col in self.df.columns] for a name that starts with [semaine_] *)
Definition has_column (s : Optimizer) (col : string) : bool :=
  bool_decide (col ∈ week_columns s).

(** [box[week_col]] when it is not [NaN] *)
Definition observation (r : BoxRow) (col : string) : option R :=
  semaines r !! col.

(** ** Scoring *)

Section Scoring.
Local Open Scope R_scope.

Definition sum_R (l : list R) : R := foldr Rplus 0 l.

(** [np.mean] *)
Definition np_mean (l : list R) : R := sum_R l / INR (length l).

(** [np.polyfit(range(len(ys)), ys, 1)[0]]: the slope of the
    least-squares line through the points [(0, y0), (1, y1), ...]. *)
Definition polyfit_slope (ys : list R) : R :=
  let n := INR (length ys) in
  let xs := map INR (seq 0 (length ys)) in
  let sx := sum_R xs in
  let sy := sum_R ys in
  let sxy := sum_R (zip_with Rmult xs ys) in
  let sxx := sum_R (zip_with Rmult xs xs) in
  (n * sxy - sx * sy) / (n * sxx - sx * sx).

(** The loop [for i in range(len(self.week_columns), 0, -1)] of
    [get_current_week] and [get_current_week_for_box], returning the first
    [i] that passes [ok] and the fallback [1] when none does. *)
Fixpoint last_week (ok : Z → bool) (n : nat) : Z :=
  match n with
  | O => 1%Z
  | S k => if ok (Z.of_nat (S k)) then Z.of_nat (S k) else last_week ok k
  end.

Definition get_current_week (s : Optimizer) : Z :=
  last_week
    (λ i, has_column s (week_col i)
          && existsb (λ r, bool_decide (is_Some (observation r (week_col i))))
                     (df s))
    (length (week_columns s)).

Definition get_current_week_for_box (s : Optimizer) (box_id : Z) : Z :=
  match box_rows s box_id with
  | [] => 1%Z
  | row :: _ =>
      last_week
        (λ i, has_column s (week_col i)
              && bool_decide (is_Some (observation row (week_col i))))
        (length (week_columns s))
  end.

(** The list [recent_scores] built by the loop of [calculate_fill_score]:
    oldest week first. *)
Definition recent_scores (s : Optimizer) (row : BoxRow) (current_week : Z)
  : list R :=
  let recent_weeks := Z.min 4 current_week in
  omap (λ i, let week_num := (current_week - recent_weeks + 1 + i)%Z in
             if has_column s (week_col week_num)
             then observation row (week_col week_num)
             else None)
       (seqZ 0 recent_weeks).

Definition calculate_fill_score (s : Optimizer) (box_id : Z)
    (current_week : option Z) : R :=
  match box_rows s box_id with
  | [] => 0.0
  | row :: _ =>
      let current_week :=
        match current_week with
        | Some w => w
        | None => get_current_week_for_box s box_id
        end in
      let scores := recent_scores s row current_week in
      match scores with
      | [] => 0.0
      | _ =>
          let avg_score := np_mean scores in
          let trend_bonus :=
            if decide (2 ≤ length scores)%nat
            then Rmin (polyfit_slope scores * 0.5) 2.0
            else 0 in
          Rmax 0 (avg_score + trend_bonus)
      end
  end.

Definition calculate_days_since_last_visit (s : Optimizer) (clk : Clock)
    (box_id : Z) : result (option Z) :=
  match last_visit s !! box_id with
  | None => Ok None
  | Some None => Raise AttributeError
  | Some (Some lv) =>
      match tzinfo lv with
      | Some tz =>
          Ok (Some (timedelta_days (clk_wall_us clk) (clk_utcoffset clk)
                                   (wall_us lv) (utcoffset tz)))
      | None =>
          let last_visit_aware := replace_tzinfo lv (timezone s) in
          Ok (Some (timedelta_days (clk_wall_us clk) (clk_utcoffset clk)
                                   (wall_us last_visit_aware)
                                   (utcoffset (timezone s))))
      end
  end.

(** The body of [calculate_urgency_score] below the call that reads the
    ledger. *)
Definition urgency_of_days (s : Optimizer) (box_id : Z)
    (days_since : option Z) : R :=
  match days_since with
  | None =>
      match box_rows s box_id with
      | row :: _ =>
          match volume_moyen row with
          | Some avg_fill =>
              if Rlt_dec 0 avg_fill then Rmin (avg_fill * 0.8) 8.0 else 3.0
          | None => 3.0
          end
      | [] => 3.0
      end
  | Some d =>
      let urgency := 10 / (1 + exp (-0.5 * (IZR d - 7))) in
      let urgency :=
        if (d <=? 1)%Z then Rmax urgency 1.0
        else if (d <=? 3)%Z then Rmax urgency 2.0
        else urgency in
      Rmin urgency 10.0
  end.

Definition calculate_urgency_score (s : Optimizer) (clk : Clock)
    (box_id : Z) : result R :=
  days_since ← calculate_days_since_last_visit s clk box_id;
  mret (urgency_of_days s box_id days_since).

Definition calculate_expected_fill (s : Optimizer) (box_id : Z) : R :=
  let fill_score := calculate_fill_score s box_id None in
  let avg_fill :=
    match box_rows s box_id with
    | row :: _ => match volume_moyen row with Some a => a | None => 0 end
    | [] => 0
    end in
  let expected_fill := fill_score * 0.7 + avg_fill * 0.3 in
  Rmin expected_fill 10.0.

(** The body of [calculate_equity_score] below the call that reads the
    ledger. *)
Definition equity_of_days (days_since : option Z) : R :=
  match days_since with
  | None => 8.0
  | Some d =>
      if (d <=? 0)%Z then 0.0
      else if (d <=? 7)%Z then IZR d * 0.5
      else if (d <=? 30)%Z then 3.5 + (IZR d - 7) * 0.2
      else Rmin (8.0 + (IZR d - 30) * 0.1) 15.0
  end.

Definition calculate_equity_score (s : Optimizer) (clk : Clock)
    (box_id : Z) : result R :=
  days_since ← calculate_days_since_last_visit s clk box_id;
  mret (equity_of_days days_since).

(** Lines 324 to 341 of [calculate_profitability_score]: the combination
    of the three components. *)
Definition combine_scores (expected_fill urgency equity : R) : R :=
  let normalized_fill := expected_fill / 10.0 in
  let normalized_urgency := urgency / 10.0 in
  let normalized_equity := equity / 15.0 in
  let base_score := normalized_fill * 100 in
  let urgency_multiplier := 1.0 + normalized_urgency * 0.5 in
  let equity_bonus := normalized_equity * 30 in
  let profitability := base_score * urgency_multiplier + equity_bonus in
  Rmin profitability 130.0.

(** [calculate_profitability_score] past the cache test: the score computed
    from the catalog and the ledger. *)
Definition compute_profitability (s : Optimizer) (clk : Clock)
    (box_id : Z) : result R :=
  let expected_fill := calculate_expected_fill s box_id in
  urgency ← calculate_urgency_score s clk box_id;
  equity ← calculate_equity_score s clk box_id;
  mret (combine_scores expected_fill urgency equity).

Definition calculate_profitability_score (s : Optimizer) (clk : Clock)
    (box_id : Z) : result R :=
  match _cache_valid s, _score_cache s !! box_id with
  | true, Some b => Ok (profitability_score b)
  | _, _ => compute_profitability s clk box_id
  end.

End Scoring.

(** ** Score cache *)

Definition invalidate_cache (s : Optimizer) : Optimizer := set_cache s ∅ false.

(** The six components that [_precompute_all_scores] and
    [_recalculate_box_scores] compute for one box, in the order of the
    source; the two methods differ in the [current_week] they pass to
    [calculate_fill_score]. *)
Definition box_scores (s : Optimizer) (clk : Clock) (box_id : Z)
    (current_week : Z) : result Bundle :=
  let fill := calculate_fill_score s box_id (Some current_week) in
  urgency ← calculate_urgency_score s clk box_id;
  equity ← calculate_equity_score s clk box_id;
  let expected := calculate_expected_fill s box_id in
  profitability ← calculate_profitability_score s clk box_id;
  days ← calculate_days_since_last_visit s clk box_id;
  mret {| fill_score := fill; urgency_score := urgency;
          equity_score := equity; expected_fill := expected;
          profitability_score := profitability;
          days_since_last_visit := days |}.

(** The loop [for _, box in self.df.iterrows()] of
    [_precompute_all_scores]. *)
Fixpoint precompute_loop (rows : list BoxRow) (s : Optimizer) (clk : Clock)
    (current_week : Z) : result Optimizer :=
  match rows with
  | [] => Ok s
  | box :: rest =>
      let box_id := n_boite box in
      b ← box_scores s clk box_id current_week;
      precompute_loop rest
        (set_cache s (<[box_id := b]> (_score_cache s)) (_cache_valid s))
        clk current_week
  end.

Definition _precompute_all_scores (s : Optimizer) (clk : Clock)
  : result Optimizer :=
  let current_week := get_current_week s in
  s' ← precompute_loop (df s) s clk current_week;
  mret (set_cache s' (_score_cache s') true).

Definition _recalculate_box_scores (s : Optimizer) (clk : Clock) (box_id : Z)
  : result Optimizer :=
  let current_week := get_current_week_for_box s box_id in
  b ← box_scores s clk box_id current_week;
  mret (set_cache s (<[box_id := b]> (_score_cache s)) (_cache_valid s)).

(** The fields as [__init__] sets them before the pre-warm pass. *)
Definition empty_optimizer (tz : TzInfo) (columns : list string)
    (rows : list BoxRow) : Optimizer :=
  {| df := rows; week_columns := columns; last_visit := ∅;
     visit_history := ∅; _score_cache := ∅; _cache_valid := false;
     timezone := tz |}.

(** [BoxCollectionOptimizer.__init__] on a CSV file that has the required
    columns: [columns] are the names that start with [semaine_], [rows] the
    typed rows, [tz] is [pytz.timezone('Europe/Zurich')]. *)
Definition __init__ (tz : TzInfo) (columns : list string)
    (rows : list BoxRow) (clk : Clock) : result Optimizer :=
  match columns with
  | [] => Raise ValueError
  | _ => _precompute_all_scores (empty_optimizer tz columns rows) clk
  end.

(** ** Mutations *)

Definition mark_visit (s : Optimizer) (clk : Clock) (box_id : Z)
    (level : option R) : result Optimizer :=
  let expected := calculate_expected_fill s box_id in
  let s1 :=
    set_last_visit s (<[box_id := Some (datetime_now clk)]> (last_visit s)) in
  let history := default [] (visit_history s1 !! box_id) in
  let visit_record :=
    {| date := isoformat (datetime_now clk); fill_level := level;
       visit_expected_fill := expected |} in
  let s2 :=
    set_visit_history s1
      (<[box_id := history ++ [visit_record]]> (visit_history s1)) in
  let s3 := invalidate_cache s2 in
  _recalculate_box_scores s3 clk box_id.

(** The dictionary [box_data] given to [add_box]: a key that is missing is
    [None].  The values have the types of the docstring (an [int], four
    [str] and a [float]), on which the conversions [int(...)], [str(...)]
    and [float(...)] of [add_box] return; the [except] branch, reached only
    when one of them raises, is outside the model. *)
Record BoxData : Type := {
  data_n_boite : option Z;
  data_adresse : option string;
  data_commune : option string;
  data_cp : option string;
  data_conteneur : option string;
  data_volume_moyen : option R
}.

Definition add_box (s : Optimizer) (box_data : BoxData)
  : bool * Optimizer :=
  match data_n_boite box_data, data_adresse box_data,
        data_commune box_data, data_cp box_data,
        data_conteneur box_data, data_volume_moyen box_data with
  | Some id, Some a, Some c, Some p, Some k, Some v =>
      if in_catalog s id then (false, s)
      else
        let new_row :=
          {| n_boite := id; adresse := a; commune := c; cp := p;
             conteneur := k; volume_moyen := Some v; semaines := ∅ |} in
        let s1 := set_df s (df s ++ [new_row]) in
        let s2 :=
          match last_visit s1 !! id with
          | None => set_last_visit s1 (<[id := None]> (last_visit s1))
          | Some _ => s1
          end in
        let s3 :=
          match visit_history s2 !! id with
          | None => set_visit_history s2 (<[id := []]> (visit_history s2))
          | Some _ => s2
          end in
        (true, invalidate_cache s3)
  | _, _, _, _, _, _ => (false, s)
  end.

Definition remove_box (s : Optimizer) (box_id : Z) : bool * Optimizer :=
  if negb (in_catalog s box_id) then (false, s)
  else
    let s1 := set_df s (filter (λ r, n_boite r ≠ box_id) (df s)) in
    let s2 := set_last_visit s1 (delete box_id (last_visit s1)) in
    let s3 := set_visit_history s2 (delete box_id (visit_history s2)) in
    (true, set_cache s3 (delete box_id (_score_cache s3)) (_cache_valid s3)).

(** The dictionary [box_data] given to [update_box]: a key that is missing
    is [None]; the value given for [volume_moyen] may be [NaN].  The values
    have the type of their column, on which every assignment of
    [update_box] returns; the [except] branch, reached when an assignment
    raises after earlier fields were written, is outside the model. *)
Record BoxUpdate : Type := {
  upd_adresse : option string;
  upd_commune : option string;
  upd_cp : option string;
  upd_conteneur : option string;
  upd_volume_moyen : option (option R)
}.

(** [self.df.loc[self.df['n_boite'] == box_id, field] = box_data[field]]
    for each allowed field present in [box_data]. *)
Definition update_row (box_id : Z) (box_data : BoxUpdate) (r : BoxRow)
  : BoxRow :=
  if decide (n_boite r = box_id) then
    {| n_boite := n_boite r;
       adresse := default (adresse r) (upd_adresse box_data);
       commune := default (commune r) (upd_commune box_data);
       cp := default (cp r) (upd_cp box_data);
       conteneur := default (conteneur r) (upd_conteneur box_data);
       volume_moyen :=
         default (volume_moyen r) (upd_volume_moyen box_data);
       semaines := semaines r |}
  else r.

Definition update_box (s : Optimizer) (box_id : Z) (box_data : BoxUpdate)
  : bool * Optimizer :=
  if negb (in_catalog s box_id) then (false, s)
  else
    let s1 := set_df s (map (update_row box_id box_data) (df s)) in
    (true, invalidate_cache s1).

(** ** Detail lookup *)

(** [round(x, 1)] on reals: nearest multiple of one tenth, ties to the even
    one. *)
Definition round_half_even (x : R) : Z :=
  let f := Int_part x in
  let r := (x - IZR f)%R in
  if Rlt_dec r 0.5 then f
  else if Rlt_dec 0.5 r then (f + 1)%Z
  else if Z.even f then f else (f + 1)%Z.

Definition py_round1 (x : R) : R := (IZR (round_half_even (x * 10)) / 10)%R.

(** The dictionary returned by [get_box_details]. *)
Record BoxDetails : Type := {
  details_box_id : Z;
  details_address : string;
  details_commune : string;
  details_postal_code : string;
  details_container_type : string;
  details_average_fill : R;
  details_current_score : R;
  details_expected_fill : R;
  details_days_since_last_visit : option Z;
  details_recent_history : list (string * R);
  details_visit_history : list VisitRecord
}.

(** The loop [for i in range(8)] of [get_box_details]. *)
Definition recent_history (s : Optimizer) (box : BoxRow)
  : list (string * R) :=
  omap (λ i, let w := (Z.of_nat (length (week_columns s)) - i)%Z in
             if has_column s (week_col w)
             then (λ score, ("Semaine " +:+ py_str w, score))
                    <$> observation box (week_col w)
             else None)
       (seqZ 0 8).

Definition get_box_details (s : Optimizer) (clk : Clock) (id : Z)
  : result (option BoxDetails) :=
  match box_rows s id with
  | [] => Ok None
  | box :: _ =>
      let history := recent_history s box in
      score ← calculate_profitability_score s clk id;
      days ← calculate_days_since_last_visit s clk id;
      mret (Some
        {| details_box_id := id;
           details_address := adresse box;
           details_commune := commune box;
           details_postal_code := cp box;
           details_container_type := conteneur box;
           details_average_fill :=
             match volume_moyen box with
             | Some v => py_round1 v
             | None => 0%R
             end;
           details_current_score := py_round1 score;
           details_expected_fill :=
             py_round1 (calculate_expected_fill s id);
           details_days_since_last_visit := days;
           details_recent_history := history;
           details_visit_history := default [] (visit_history s !! id) |})
  end.

(** ** Persistence of the ledger *)

(** The JSON document of [optimizer_state.json]: two objects, each a list of
    key and value in the order of the file. *)
Record StateFile : Type := {
  f_last_visit : list (string * iso_text);
  f_visit_history : list (string * list VisitRecord)
}.

(** [v.isoformat() if v.tzinfo is not None else
     v.replace(tzinfo=self.timezone).isoformat()], with [v] possibly the
    value [None] that has no attribute [tzinfo]. *)
Definition save_timestamp (tz : TzInfo) (v : option datetime)
  : result iso_text :=
  match v with
  | None => Raise AttributeError
  | Some dt =>
      match tzinfo dt with
      | Some _ => Ok (isoformat dt)
      | None => Ok (isoformat (replace_tzinfo dt tz))
      end
  end.

(** [save_state] on a file system [fs] where the write succeeds. *)
Definition save_state (s : Optimizer) (filename : string)
    (fs : gmap string StateFile) : result (gmap string StateFile) :=
  lv ← mapM (λ kv, t ← save_timestamp (timezone s) kv.2;
                   mret (py_str kv.1, t))
            (map_to_list (last_visit s));
  let vh := (λ kv, (py_str kv.1, kv.2)) <$> map_to_list (visit_history s) in
  mret (<[filename := {| f_last_visit := lv; f_visit_history := vh |}]> fs).

(** The loop of [load_state] that fills [self.last_visit]; the boolean is
    [false] when [int(k)] raised and the loop was left early. *)
Fixpoint load_last_visit (tz : TzInfo) (items : list (string * iso_text))
    (acc : gmap Z (option datetime)) : gmap Z (option datetime) * bool :=
  match items with
  | [] => (acc, true)
  | (k, v) :: rest =>
      let dt := fromisoformat v in
      let dt :=
        match tzinfo dt with
        | None => replace_tzinfo dt tz
        | Some _ => dt
        end in
      match py_int k with
      | None => (acc, false)
      | Some i => load_last_visit tz rest (<[i := Some dt]> acc)
      end
  end.

(** The comprehension [{int(k): v for k, v in ...}] of [load_state];
    [None] when [int(k)] raised. *)
Fixpoint load_visit_history (items : list (string * list VisitRecord))
    (acc : gmap Z (list VisitRecord)) : option (gmap Z (list VisitRecord)) :=
  match items with
  | [] => Some acc
  | (k, v) :: rest =>
      match py_int k with
      | None => None
      | Some i => load_visit_history rest (<[i := v]> acc)
      end
  end.

Definition load_state (s : Optimizer) (filename : string)
    (fs : gmap string StateFile) : Optimizer :=
  match fs !! filename with
  | None => s
  | Some f =>
      let '(lv, complete) := load_last_visit (timezone s) (f_last_visit f) ∅ in
      let s1 := set_last_visit s lv in
      if complete then
        match load_visit_history (f_visit_history f) ∅ with
        | Some vh => set_visit_history s1 vh
        | None => s1
        end
      else s1
  end.

(** The timestamp [load_state] rebuilds from the text that [save_state]
    writes for [dt]. *)
Definition reloaded (tz : TzInfo) (dt : datetime) : datetime :=
  fromisoformat
    (isoformat
       (match tzinfo dt with
        | Some _ => dt
        | None => replace_tzinfo dt tz
        end)).

(** The bundle [box_scores] computes for a box that has no key in the ledger
    while the cache is not valid. *)
Definition never_visited_bundle (s : Optimizer) (id : Z) (current_week : Z)
  : Bundle :=
  {| fill_score := calculate_fill_score s id (Some current_week);
     urgency_score := urgency_of_days s id None;
     equity_score := equity_of_days None;
     expected_fill := calculate_expected_fill s id;
     profitability_score :=
       combine_scores (calculate_expected_fill s id)
                      (urgency_of_days s id None) (equity_of_days None);
     days_since_last_visit := None |}.

(** The entry [mark_visit] appends to the history of [id]. *)
Definition visit_record_of (s : Optimizer) (clk : Clock) (id : Z)
    (level : option R) : VisitRecord :=
  {| date := isoformat (datetime_now clk); fill_level := level;
     visit_expected_fill := calculate_expected_fill s id |}.

(** ** Example catalog and ledgers *)

Definition zurich : TzInfo := PytzZone (34 * 60 * 1000000).

Definition ex_columns : list string := week_col <$> [1; 2; 3; 4; 5]%Z.

(** Box 1 has an observation in each of the five weeks. *)
Definition ex_box1 : BoxRow :=
  {| n_boite := 1; adresse := "Rue du Lac 3"; commune := "Nyon";
     cp := "1260"; conteneur := "Textile"; volume_moyen := Some 9.0%R;
     semaines :=
       <[week_col 1 := 5%R]> (<[week_col 2 := 5%R]> (<[week_col 3 := 5%R]>
       (<[week_col 4 := 5%R]> (<[week_col 5 := 5%R]> ∅)))) |}.

(** Box 2 was last observed in week 1. *)
Definition ex_box2 : BoxRow :=
  {| n_boite := 2; adresse := "Chemin des Ouches 1"; commune := "Gland";
     cp := "1196"; conteneur := "Textile"; volume_moyen := None;
     semaines := <[week_col 1 := 6%R]> ∅ |}.

Definition ex_rows : list BoxRow := [ex_box1; ex_box2].

(** The optimizer before the pre-warm pass of the constructor. *)
Definition ex_fresh : Optimizer :=
  {| df := ex_rows; week_columns := ex_columns; last_visit := ∅;
     visit_history := ∅; _score_cache := ∅; _cache_valid := false;
     timezone := zurich |}.

(** The cache the constructor builds for [ex_rows]: week 5 is the last week
    with an observation in the catalog. *)
Definition ex_prewarmed : Optimizer :=
  set_cache ex_fresh
    (<[2%Z := never_visited_bundle ex_fresh 2 5]>
       (<[1%Z := never_visited_bundle ex_fresh 1 5]> ∅)) true.

Definition ex_visit_time : datetime :=
  {| wall_us := 0; tzinfo := Some (PytzZone 3600000000) |}.

(** Box 1 was visited at [ex_visit_time]; box 2 never. *)
Definition ex_visited : Optimizer :=
  set_last_visit ex_fresh (<[1%Z := Some ex_visit_time]> ∅).

(** The clock [n] days and one hour after [ex_visit_time]. *)
Definition ex_clock (n : Z) : Clock :=
  {| clk_wall_us := n * us_per_day + 3600000000;
     clk_utcoffset := 3600000000 |}.

(** A valid cache that holds a bundle for box 1 computed before the visit
    of [ex_visited] was on record. *)
Definition ex_cached : Optimizer :=
  set_cache ex_visited
    (<[1%Z := never_visited_bundle ex_fresh 1 5]> ∅) true.

Definition ex_box_data : BoxData :=
  {| data_n_boite := Some 7%Z; data_adresse := Some "Grand-Rue 12";
     data_commune := Some "Rolle"; data_cp := Some "1180";
     data_conteneur := Some "Textile";
     data_volume_moyen := Some 4.0%R |}.

Definition ex_box_update : BoxUpdate :=
  {| upd_adresse := None; upd_commune := None;
     upd_cp := None; upd_conteneur := None;
     upd_volume_moyen := Some (Some 2.0%R) |}.

(** A ledger with one aware and one naive timestamp. *)
Definition ex_ledger : Optimizer :=
  set_visit_history
    (set_last_visit ex_fresh
       (<[1%Z := Some ex_visit_time]>
        (<[2%Z := Some {| wall_us := 5; tzinfo := None |}]> ∅)))
    (<[1%Z := [{| date := isoformat ex_visit_time; fill_level := Some 7.5%R;
                  visit_expected_fill := 6.2%R |}]]> ∅).

(** ** Recommendations *)

(** An entry of the list returned by [get_recommended_boxes]. *)
Record Recommendation : Type := {
  rec_box_id : Z;
  rec_address : string;
  rec_commune : string;
  rec_postal_code : string;
  rec_container_type : string;
  rec_profitability_score : R;
  rec_expected_fill : R;
  rec_equity_score : R;
  rec_days_since_last_visit : option Z;
  rec_average_fill : R
}.

(** The loop [for _, box in self.df.iterrows()] of [get_recommended_boxes]:
    the entries appended to [recommendations], in the order of the rows. *)
Fixpoint recommend_loop (s : Optimizer) (clk : Clock) (min_score : R)
    (rows : list BoxRow) : result (list Recommendation) :=
  match rows with
  | [] => Ok []
  | box :: rest =>
      let box_id := n_boite box in
      score ← calculate_profitability_score s clk box_id;
      let expected := calculate_expected_fill s box_id in
      days_since ← calculate_days_since_last_visit s clk box_id;
      if Rge_dec score min_score then
        equity ← calculate_equity_score s clk box_id;
        tail ← recommend_loop s clk min_score rest;
        mret ({| rec_box_id := box_id;
                 rec_address := adresse box;
                 rec_commune := commune box;
                 rec_postal_code := cp box;
                 rec_container_type := conteneur box;
                 rec_profitability_score := py_round1 score;
                 rec_expected_fill := py_round1 expected;
                 rec_equity_score := py_round1 equity;
                 rec_days_since_last_visit := days_since;
                 rec_average_fill :=
                   match volume_moyen box with
                   | Some v => py_round1 v
                   | None => 0%R
                   end |} :: tail)
      else recommend_loop s clk min_score rest
  end.

(** One step of a stable sort by decreasing [profitability_score]: [x],
    which stood before every element of [l], goes before the first element
    whose score is not greater than its own. *)
Fixpoint insert_by_score (x : Recommendation) (l : list Recommendation)
  : list Recommendation :=
  match l with
  | [] => [x]
  | y :: l' =>
      if Rlt_dec (rec_profitability_score x) (rec_profitability_score y)
      then y :: insert_by_score x l'
      else x :: y :: l'
  end.

(** [recommendations.sort(key=lambda x: x['profitability_score'],
    reverse=True)]: the sort is stable, so its result is the one
    arrangement by decreasing score that keeps equal scores in their
    original order. *)
Definition sort_by_score (l : list Recommendation) : list Recommendation :=
  foldr insert_by_score [] l.

(** The slice [l[:n]]: a negative [n] counts from the end. *)
Definition slice_to {A : Type} (l : list A) (n : Z) : list A :=
  if (0 <=? n)%Z then take (Z.to_nat n) l
  else take (Z.to_nat (Z.of_nat (length l) + n)) l.

(** [get_recommended_boxes]; the statistics sent to the log are left
    out. *)
Definition get_recommended_boxes (s : Optimizer) (clk : Clock)
    (max_boxes : Z) (min_score : R) : result (list Recommendation) :=
  recommendations ← recommend_loop s clk min_score (df s);
  mret (slice_to (sort_by_score recommendations) max_boxes).

(** ** The web layer ([app.py]) *)

(** The status code of the JSON answer; its [success] field is true exactly
    for 200. *)
Definition http_status : Type := Z.

(** The name [save_state] and [load_state] use when called without one. *)
Definition state_filename : string := "optimizer_state.json".

(** The route [/api/visit] with the global [optimizer] initialised: the
    answer, the optimizer and the file system afterwards. *)
Definition api_mark_visit (s : Optimizer) (fs : gmap string StateFile)
    (clk : Clock) (box_id : option Z) (level : option R)
  : http_status * Optimizer * gmap string StateFile :=
  match box_id with
  | None => (400%Z, s, fs)
  | Some id =>
      match mark_visit s clk id level with
      | Raise _ => (500%Z, s, fs)
      | Ok s' =>
          match save_state s' state_filename fs with
          | Ok fs' => (200%Z, s', fs')
          | Raise _ => (500%Z, s', fs)
          end
      end
  end.

(** The route [/api/add-box]. *)
Definition api_add_box (s : Optimizer) (fs : gmap string StateFile)
    (data : BoxData) : http_status * Optimizer * gmap string StateFile :=
  match data_n_boite data, data_adresse data, data_commune data,
        data_cp data, data_conteneur data, data_volume_moyen data with
  | Some _, Some _, Some _, Some _, Some _, Some _ =>
      let '(success, s') := add_box s data in
      if success then
        match save_state s' state_filename fs with
        | Ok fs' => (200%Z, s', fs')
        | Raise _ => (500%Z, s', fs)
        end
      else (500%Z, s', fs)
  | _, _, _, _, _, _ => (400%Z, s, fs)
  end.

(** The route [/api/remove-box/<int:box_id>]. *)
Definition api_remove_box (s : Optimizer) (fs : gmap string StateFile)
    (box_id : Z) : http_status * Optimizer * gmap string StateFile :=
  let '(success, s') := remove_box s box_id in
  if success then
    match save_state s' state_filename fs with
    | Ok fs' => (200%Z, s', fs')
    | Raise _ => (500%Z, s', fs)
    end
  else (404%Z, s', fs).

(** The route [/api/update-box/<int:box_id>]; the key [n_boite], which the
    route deletes from the request, is not a field of [BoxUpdate]. *)
Definition api_update_box (s : Optimizer) (fs : gmap string StateFile)
    (box_id : Z) (data : BoxUpdate)
  : http_status * Optimizer * gmap string StateFile :=
  let '(success, s') := update_box s box_id data in
  if success then
    match save_state s' state_filename fs with
    | Ok fs' => (200%Z, s', fs')
    | Raise _ => (500%Z, s', fs)
    end
  else (404%Z, s', fs).

(** The route [/api/reset-visits]. *)
Definition api_reset_visits (s : Optimizer) (fs : gmap string StateFile)
  : http_status * Optimizer * gmap string StateFile :=
  let s1 := set_last_visit s ∅ in
  let s2 := set_visit_history s1 ∅ in
  let s3 := invalidate_cache s2 in
  match save_state s3 state_filename fs with
  | Ok fs' => (200%Z, s3, fs')
  | Raise _ => (500%Z, s3, fs)
  end.

(** [init_optimizer] when the global is still [None]: the constructor, then
    [load_state]. *)
Definition init_optimizer (tz : TzInfo) (columns : list string)
    (rows : list BoxRow) (clk : Clock) (fs : gmap string StateFile)
  : result Optimizer :=
  s ← __init__ tz columns rows clk;
  mret (load_state s state_filename fs).

(** ** The test script ([test_app.py]) *)

(** The chained comparison [lo <= x <= hi]. *)
Definition chained_le (lo x hi : R) : bool :=
  if Rle_dec lo x then (if Rle_dec x hi then true else false) else false.

(** The loop of [test_scoring_algorithm] over the ids it is given: [false]
    as soon as a check fails or an exception is raised, the comparison
    [days_since < 0] on [None] included. *)
Fixpoint scoring_checks (s : Optimizer) (clk : Clock) (test_boxes : list Z)
  : bool :=
  match test_boxes with
  | [] => true
  | box_id :: rest =>
      match calculate_profitability_score s clk box_id,
            calculate_days_since_last_visit s clk box_id with
      | Ok score, Ok days_since =>
          let expected := calculate_expected_fill s box_id in
          if negb (chained_le 0 score 100) then false
          else if negb (chained_le 0 expected 10) then false
          else match days_since with
               | None => false
               | Some d => if (d <? 0)%Z then false
                           else scoring_checks s clk rest
               end
      | _, _ => false
      end
  end.

(** [test_scoring_algorithm] on the optimizer it has built and loaded:
    the first five ids of the catalog are checked. *)
Definition test_scoring_algorithm (s : Optimizer) (clk : Clock) : bool :=
  scoring_checks s clk (take 5 (map n_boite (df s))).

(** Further examples: a ledger that holds the [None] left by [add_box], and
    a state file with a key that is not an integer. *)
Definition ex_added : Optimizer := (add_box ex_visited ex_box_data).2.

Definition ex_bad_file : StateFile :=
  {| f_last_visit := [(py_str 1, isoformat ex_visit_time)];
     f_visit_history := [("box-1", [])] |}.

(** * Properties *)

(** ** Lookups in the catalog and in the ledger *)

Lemma box_rows_absent (s : Optimizer) (id : Z) :
  in_catalog s id = false → box_rows s id = [].
Proof.
  unfold in_catalog, box_rows. intros H.
  apply bool_decide_eq_false in H.
  induction (df s) as [|r l IH]; [done|].
  rewrite filter_cons. case_decide as Hr.
  - exfalso. apply H. simpl. rewrite <- Hr. apply list_elem_of_here.
  - apply IH. intros Hin. apply H. simpl. by apply list_elem_of_further.
Qed.

Lemma box_rows_present (s : Optimizer) (id : Z) :
  in_catalog s id = true → ∃ r l, box_rows s id = r :: l ∧ n_boite r = id.
Proof.
  unfold in_catalog, box_rows. intros H.
  apply bool_decide_eq_true in H.
  induction (df s) as [|r l IH]; simpl in H.
  - by apply elem_of_nil in H.
  - rewrite filter_cons. case_decide as Hr.
    + eauto.
    + apply elem_of_cons in H as [H|H]; [congruence|]. by apply IH.
Qed.

Lemma days_since_never (s : Optimizer) (clk : Clock) (id : Z) :
  last_visit s !! id = None →
  calculate_days_since_last_visit s clk id = Ok None.
Proof. unfold calculate_days_since_last_visit. by intros ->. Qed.

Lemma days_since_none_value (s : Optimizer) (clk : Clock) (id : Z) :
  last_visit s !! id = Some None →
  calculate_days_since_last_visit s clk id = Raise AttributeError.
Proof. unfold calculate_days_since_last_visit. by intros ->. Qed.

Lemma urgency_of_days_eq (s : Optimizer) (clk : Clock) (id : Z)
    (days : option Z) :
  calculate_days_since_last_visit s clk id = Ok days →
  calculate_urgency_score s clk id = Ok (urgency_of_days s id days).
Proof. unfold calculate_urgency_score. by intros ->. Qed.

Lemma equity_of_days_eq (s : Optimizer) (clk : Clock) (id : Z)
    (days : option Z) :
  calculate_days_since_last_visit s clk id = Ok days →
  calculate_equity_score s clk id = Ok (equity_of_days days).
Proof. unfold calculate_equity_score. by intros ->. Qed.

(** ** Component scores *)

Section ScoreFacts.
Local Open Scope R_scope.

Lemma logistic_bounds (x : R) : 0 < 10 / (1 + exp x) < 10.
Proof.
  pose proof (exp_pos x) as He.
  assert (Hq : 10 / (1 + exp x) * (1 + exp x) = 10) by (field; lra).
  split.
  - apply Rdiv_lt_0_compat; lra.
  - nra.
Qed.

Lemma exp_3_gt_4 : 4 < exp 3.
Proof. pose proof (exp_ineq1 3). lra. Qed.

Lemma urgency_of_days_range (s : Optimizer) (id : Z) (days : option Z) :
  0 <= urgency_of_days s id days <= 10.
Proof.
  unfold urgency_of_days. destruct days as [d|].
  - pose proof (logistic_bounds (-0.5 * (IZR d - 7))) as [H0 H10].
    destruct (d <=? 1)%Z; [|destruct (d <=? 3)%Z];
      unfold Rmin, Rmax; repeat destruct Rle_dec; lra.
  - destruct (box_rows s id) as [|row ?]; [lra|].
    destruct (volume_moyen row) as [a|]; [|lra].
    destruct (Rlt_dec 0 a); [|lra].
    unfold Rmin; destruct Rle_dec; lra.
Qed.

Lemma equity_of_days_range (days : option Z) :
  0 <= equity_of_days days <= 15.
Proof.
  unfold equity_of_days. destruct days as [d|]; [|lra].
  destruct (Z.leb_spec d 0); [lra|].
  destruct (Z.leb_spec d 7).
  { assert (0 < IZR d <= 7) by (split; [apply IZR_lt | apply IZR_le]; lia).
    lra. }
  destruct (Z.leb_spec d 30).
  { assert (7 < IZR d <= 30) by (split; [apply IZR_lt | apply IZR_le]; lia).
    lra. }
  assert (30 < IZR d) by (apply IZR_lt; lia).
  unfold Rmin; destruct Rle_dec; lra.
Qed.

Lemma combine_scores_range (ef u e : R) :
  0 <= ef → 0 <= u → 0 <= e → 0 <= combine_scores ef u e <= 130.
Proof.
  intros Hf Hu He. unfold combine_scores.
  assert (0 <= ef / 10.0 * 100 * (1.0 + u / 10.0 * 0.5)) by nra.
  unfold Rmin; destruct Rle_dec; lra.
Qed.

(** C10: for a box id that is neither in the catalog nor a key of the
    ledger, [calculate_fill_score] returns 0.0 (whatever week is passed),
    [calculate_urgency_score] returns 3.0, [calculate_equity_score] returns
    8.0 and [get_box_details] returns [None]; none of them raises. *)
Theorem absent_box_defaults (s : Optimizer) (clk : Clock) (id : Z)
    (week : option Z) :
  in_catalog s id = false →
  last_visit s !! id = None →
  calculate_fill_score s id week = 0.0
  ∧ calculate_urgency_score s clk id = Ok 3.0
  ∧ calculate_equity_score s clk id = Ok 8.0
  ∧ get_box_details s clk id = Ok None.
Proof.
  intros Hcat Hlv.
  pose proof (box_rows_absent s id Hcat) as Hrows.
  pose proof (days_since_never s clk id Hlv) as Hd.
  repeat split.
  - unfold calculate_fill_score. by rewrite Hrows.
  - rewrite (urgency_of_days_eq _ _ _ _ Hd). simpl. by rewrite Hrows.
  - by rewrite (equity_of_days_eq _ _ _ _ Hd).
  - unfold get_box_details. by rewrite Hrows.
Qed.

Lemma absent_box_defaults_witness :
  calculate_fill_score ex_visited 99 None = 0.0
  ∧ calculate_urgency_score ex_visited (ex_clock 3) 99 = Ok 3.0
  ∧ calculate_equity_score ex_visited (ex_clock 3) 99 = Ok 8.0
  ∧ get_box_details ex_visited (ex_clock 3) 99 = Ok None.
Proof. apply (absent_box_defaults ex_visited (ex_clock 3) 99 None); reflexivity. Defined.

(** C6 (as amended): for a visited box with [d] days since the last visit,
    [calculate_equity_score] is 0.0 for [d <= 0], [d * 0.5] for
    [0 < d <= 7], [3.5 + (d - 7) * 0.2] for [7 < d <= 30] and
    [min(8.0 + (d - 30) * 0.1, 15.0)] for [d > 30].  At the breakpoint 7 the
    two adjacent formulas both give 3.5.  At the breakpoint 30 they differ:
    the branch in force gives 8.1 and the formula of the next branch gives
    8.0. *)
Theorem equity_piecewise (s : Optimizer) (clk : Clock) (id : Z) (d : Z) :
  calculate_days_since_last_visit s clk id = Ok (Some d) →
  (∃ e, calculate_equity_score s clk id = Ok e
        ∧ ((d ≤ 0)%Z → e = 0.0)
        ∧ ((0 < d ≤ 7)%Z → e = IZR d * 0.5)
        ∧ ((7 < d ≤ 30)%Z → e = 3.5 + (IZR d - 7) * 0.2)
        ∧ ((30 < d)%Z → e = Rmin (8.0 + (IZR d - 30) * 0.1) 15.0))
  ∧ (equity_of_days (Some 7%Z) = 3.5 ∧ 3.5 + (IZR 7 - 7) * 0.2 = 3.5)
  ∧ (equity_of_days (Some 30%Z) = 8.1
     ∧ Rmin (8.0 + (IZR 30 - 30) * 0.1) 15.0 = 8.0).
Proof.
  intros Hd. split; [|split].
  - exists (equity_of_days (Some d)).
    split; [by apply equity_of_days_eq|].
    unfold equity_of_days.
    destruct (Z.leb_spec d 0), (Z.leb_spec d 7), (Z.leb_spec d 30);
      repeat split; intros; try lia; reflexivity.
  - simpl. split; lra.
  - simpl. split; [lra|]. unfold Rmin; destruct Rle_dec; lra.
Qed.

Lemma ex_days_since (n : Z) :
  (0 ≤ n)%Z →
  calculate_days_since_last_visit ex_visited (ex_clock n) 1 = Ok (Some n).
Proof.
  intros Hn. unfold calculate_days_since_last_visit, ex_visited. simpl.
  rewrite lookup_insert_eq. simpl. do 2 f_equal.
  unfold timedelta_days, us_per_day.
  symmetry. apply (Z.div_unique _ _ _ 3600000000); lia.
Qed.

Lemma equity_piecewise_witness :
  ∃ e, calculate_equity_score ex_visited (ex_clock 10) 1 = Ok e
       ∧ ((7 < 10 ≤ 30)%Z → e = 3.5 + (IZR 10 - 7) * 0.2).
Proof.
  destruct (equity_piecewise ex_visited (ex_clock 10) 1 10) as [[e He] _].
  - apply ex_days_since. lia.
  - exists e. tauto.
Defined.

(** C6 (counterexample): thirty days after the visit the equity score is
    not 8.0, the value the formula of the next branch takes at 30. *)
Lemma equity_breakpoint_30_not_8 :
  calculate_days_since_last_visit ex_visited (ex_clock 30) 1
    = Ok (Some 30%Z)
  ∧ calculate_equity_score ex_visited (ex_clock 30) 1 ≠ Ok 8.0.
Proof.
  assert (Hd := ex_days_since 30 ltac:(lia)). split; [exact Hd|].
  rewrite (equity_of_days_eq _ _ _ _ Hd). simpl. intros [= H]. lra.
Qed.

(** C7 (as amended): for a visited box with [d] days since the last visit,
    [calculate_urgency_score] is the logistic value
    [10 / (1 + exp(-0.5 * (d - 7)))] raised to at least 1.0 when [d <= 1],
    raised to at least 2.0 when [1 < d <= 3] and left as it is when
    [d > 3]; the result lies in [[0, 10]]. *)
Theorem urgency_logistic_floors (s : Optimizer) (clk : Clock) (id : Z)
    (d : Z) :
  calculate_days_since_last_visit s clk id = Ok (Some d) →
  ∃ u, calculate_urgency_score s clk id = Ok u
       ∧ ((d ≤ 1)%Z →
          u = Rmax (10 / (1 + exp (-0.5 * (IZR d - 7)))) 1.0 ∧ 1.0 <= u)
       ∧ ((1 < d ≤ 3)%Z →
          u = Rmax (10 / (1 + exp (-0.5 * (IZR d - 7)))) 2.0 ∧ 2.0 <= u)
       ∧ ((3 < d)%Z → u = 10 / (1 + exp (-0.5 * (IZR d - 7))))
       ∧ 0 <= u <= 10.
Proof.
  intros Hd. exists (urgency_of_days s id (Some d)).
  split; [by apply urgency_of_days_eq|].
  split; [|split; [|split]]; [| | |apply urgency_of_days_range].
  all: unfold urgency_of_days;
    pose proof (logistic_bounds (-0.5 * (IZR d - 7))) as [H0 H10];
    destruct (Z.leb_spec d 1), (Z.leb_spec d 3); intros; try lia.
  all: unfold Rmin, Rmax; repeat destruct Rle_dec; try lra; split; lra.
Qed.

Lemma urgency_logistic_floors_witness :
  ∃ u, calculate_urgency_score ex_visited (ex_clock 2) 1 = Ok u
       ∧ 0 <= u <= 10.
Proof.
  destruct (urgency_logistic_floors ex_visited (ex_clock 2) 1 2) as [u Hu].
  - apply ex_days_since. lia.
  - exists u. tauto.
Defined.

(** C7 (counterexample): one day after the visit, which is within three
    days, the urgency score is below 2.0. *)
Lemma urgency_day_1_below_2 :
  calculate_days_since_last_visit ex_visited (ex_clock 1) 1 = Ok (Some 1%Z)
  ∧ ∃ u, calculate_urgency_score ex_visited (ex_clock 1) 1 = Ok u ∧ u < 2.0.
Proof.
  assert (Hd := ex_days_since 1 ltac:(lia)). split; [exact Hd|].
  rewrite (urgency_of_days_eq _ _ _ _ Hd). eexists; split; [reflexivity|].
  simpl. replace (-0.5 * (1 - 7)) with 3 by lra.
  pose proof exp_3_gt_4.
  assert (Hq : 10 / (1 + exp 3) * (1 + exp 3) = 10) by (field; lra).
  assert (10 / (1 + exp 3) < 2) by nra.
  unfold Rmin, Rmax; repeat destruct Rle_dec; lra.
Qed.

(** C8: when the cache does not serve the box, the profitability score is
    [min((expected_fill / 10 * 100) * (1.0 + (urgency / 10) * 0.5)
         + (equity / 15) * 30, 130)];
    for [expected_fill] in [[0, 10]], [urgency] in [[0, 10]] and [equity]
    in [[0, 15]] it lies in [[0, 130]]. *)
Theorem profitability_formula (s : Optimizer) (clk : Clock) (id : Z)
    (u e : R) :
  calculate_urgency_score s clk id = Ok u →
  calculate_equity_score s clk id = Ok e →
  0 <= calculate_expected_fill s id <= 10 →
  0 <= u <= 10 →
  0 <= e <= 15 →
  ∃ p, compute_profitability s clk id = Ok p
       ∧ p = Rmin ((calculate_expected_fill s id / 10 * 100)
                   * (1.0 + (u / 10) * 0.5) + (e / 15) * 30) 130
       ∧ 0 <= p <= 130
       ∧ (_cache_valid s = false ∨ _score_cache s !! id = None →
          calculate_profitability_score s clk id = Ok p).
Proof.
  intros Hu He Hf Hur Her.
  exists (combine_scores (calculate_expected_fill s id) u e).
  assert (Hc : compute_profitability s clk id
               = Ok (combine_scores (calculate_expected_fill s id) u e)).
  { unfold compute_profitability. by rewrite Hu, He. }
  split; [exact Hc|]. split; [|split].
  - unfold combine_scores. f_equal; lra.
  - apply combine_scores_range; lra.
  - unfold calculate_profitability_score.
    intros [-> | ->]; [done|]. by destruct (_cache_valid s).
Qed.


Lemma profitability_formula_witness :
  ∃ p, compute_profitability ex_visited (ex_clock 10) 1 = Ok p
       ∧ 0 <= p <= 130.
Proof.
  assert (Hd := ex_days_since 10 ltac:(lia)).
  assert (Hf : 0 <= calculate_expected_fill ex_visited 1 <= 10).
  { change (0 <= Rmin (Rmax 0 (np_mean [5; 5; 5; 5]
                  + Rmin (polyfit_slope [5; 5; 5; 5] * 0.5) 2.0) * 0.7
                  + 9.0 * 0.3) 10.0 <= 10).
    unfold Rmin, Rmax; repeat destruct Rle_dec; lra. }
  destruct (profitability_formula ex_visited (ex_clock 10) 1
              (urgency_of_days ex_visited 1 (Some 10%Z))
              (equity_of_days (Some 10%Z))) as (p & Hp & _ & Hr & _).
  - by apply urgency_of_days_eq.
  - by apply equity_of_days_eq.
  - exact Hf.
  - apply urgency_of_days_range.
  - apply equity_of_days_range.
  - by exists p.
Defined.

End ScoreFacts.

(** ** Ledger and cache under the mutations *)

Lemma timedelta_days_same (a o : Z) : timedelta_days a o a o = 0%Z.
Proof. unfold timedelta_days. by rewrite Z.sub_diag. Qed.

Lemma days_since_just_visited (s : Optimizer) (clk : Clock) (id : Z) :
  last_visit s !! id = Some (Some (datetime_now clk)) →
  calculate_days_since_last_visit s clk id = Ok (Some 0%Z).
Proof.
  unfold calculate_days_since_last_visit. intros ->. simpl.
  by rewrite timedelta_days_same.
Qed.

(** The read of [calculate_profitability_score] goes past the cache as soon
    as the flag is down or the box has no entry. *)
Lemma profitability_uncached (s : Optimizer) (clk : Clock) (id : Z) :
  _cache_valid s = false ∨ _score_cache s !! id = None →
  calculate_profitability_score s clk id = compute_profitability s clk id.
Proof.
  unfold calculate_profitability_score.
  intros [-> | ->]; [done|]. by destruct (_cache_valid s).
Qed.

(** [mark_visit] returns normally for every box id, in the catalog or not:
    it binds [last_visit[id]], appends to [visit_history[id]], drops the
    cache and stores one bundle for [id]. *)
Lemma mark_visit_ok (s : Optimizer) (clk : Clock) (id : Z)
    (level : option R) :
  ∃ b, mark_visit s clk id level
       = Ok (set_cache
               (set_visit_history
                  (set_last_visit s
                     (<[id := Some (datetime_now clk)]> (last_visit s)))
                  (<[id := default [] (visit_history s !! id)
                           ++ [visit_record_of s clk id level]]>
                     (visit_history s)))
               (<[id := b]> ∅) false).
Proof.
  unfold mark_visit.
  set (s3 := invalidate_cache _).
  assert (Hd : calculate_days_since_last_visit s3 clk id = Ok (Some 0%Z)).
  { apply days_since_just_visited. subst s3. simpl. apply lookup_insert_eq. }
  unfold _recalculate_box_scores, box_scores.
  rewrite (urgency_of_days_eq _ _ _ _ Hd), (equity_of_days_eq _ _ _ _ Hd).
  rewrite profitability_uncached by (by left).
  unfold compute_profitability.
  rewrite (urgency_of_days_eq _ _ _ _ Hd), (equity_of_days_eq _ _ _ _ Hd), Hd.
  simpl. eexists. reflexivity.
Qed.

(** C1 (what the code does): for a box id absent from the catalog,
    [mark_visit] returns normally, with no not-found outcome, and the
    ledger and the cache are mutated: the id is bound in [last_visit], a
    record is appended to its history and a bundle is cached for it. *)
Theorem mark_visit_absent_mutates (s : Optimizer) (clk : Clock) (id : Z)
    (level : option R) :
  in_catalog s id = false →
  ∃ s', mark_visit s clk id level = Ok s'
        ∧ in_catalog s' id = false
        ∧ last_visit s' !! id = Some (Some (datetime_now clk))
        ∧ visit_history s' !! id
          = Some (default [] (visit_history s !! id)
                  ++ [visit_record_of s clk id level])
        ∧ visit_history s' ≠ visit_history s
        ∧ is_Some (_score_cache s' !! id).
Proof.
  intros Hcat. destruct (mark_visit_ok s clk id level) as [b ->].
  eexists. split; [reflexivity|]. simpl.
  repeat split.
  - exact Hcat.
  - apply lookup_insert_eq.
  - apply lookup_insert_eq.
  - intros Heq.
    assert (Hl : visit_history s !! id
                 = Some (default [] (visit_history s !! id)
                         ++ [visit_record_of s clk id level])).
    { rewrite <- Heq at 1. apply lookup_insert_eq. }
    destruct (visit_history s !! id) as [h|]; [|done].
    simpl in Hl. injection Hl as Hl.
    apply (f_equal length) in Hl. rewrite length_app in Hl. simpl in Hl. lia.
  - rewrite lookup_insert_eq. eauto.
Qed.

Lemma mark_visit_absent_mutates_witness :
  ∃ s', mark_visit ex_visited (ex_clock 3) 99 (Some 7.5%R) = Ok s'
        ∧ last_visit s' !! 99%Z = Some (Some (datetime_now (ex_clock 3)))
        ∧ visit_history s' ≠ visit_history ex_visited.
Proof.
  destruct (mark_visit_absent_mutates ex_visited (ex_clock 3) 99
              (Some 7.5%R)) as (s' & H1 & _ & H2 & _ & H3 & _).
  - reflexivity.
  - by exists s'.
Defined.

(** The outcome of [add_box] on a complete dictionary whose id is new. *)
Lemma add_box_ok (s : Optimizer) (bd : BoxData) (id : Z) :
  data_n_boite bd = Some id →
  is_Some (data_adresse bd) → is_Some (data_commune bd) →
  is_Some (data_cp bd) → is_Some (data_conteneur bd) →
  is_Some (data_volume_moyen bd) →
  in_catalog s id = false →
  ∃ s', add_box s bd = (true, s')
        ∧ in_catalog s' id = true
        ∧ last_visit s'
          = match last_visit s !! id with
            | None => <[id := None]> (last_visit s)
            | Some _ => last_visit s
            end
        ∧ _cache_valid s' = false
        ∧ _score_cache s' = ∅.
Proof.
  intros Hid [a Ha] [c Hc] [p Hp] [k Hk] [v Hv] Hcat.
  unfold add_box. rewrite Hid, Ha, Hc, Hp, Hk, Hv, Hcat. simpl.
  assert (Hin : ∀ l r, n_boite r = id → id ∈ map n_boite (l ++ [r])).
  { intros l r <-. rewrite map_app. apply elem_of_app. right.
    apply list_elem_of_here. }
  destruct (last_visit s !! id) eqn:E1; simpl;
    destruct (visit_history s !! id) eqn:E2; simpl;
    (eexists; split; [reflexivity|]; simpl;
     split; [apply bool_decide_eq_true; by apply Hin|done]).
Qed.

Lemma add_box_success_inv (s s' : Optimizer) (bd : BoxData) :
  add_box s bd = (true, s') →
  ∃ id, data_n_boite bd = Some id
        ∧ _cache_valid s' = false ∧ _score_cache s' = ∅.
Proof.
  unfold add_box.
  destruct (data_n_boite bd) as [id|]; [|done].
  destruct (data_adresse bd); [|done].
  destruct (data_commune bd); [|done].
  destruct (data_cp bd); [|done].
  destruct (data_conteneur bd); [|done].
  destruct (data_volume_moyen bd); [|done].
  destruct (in_catalog s id); [done|]. simpl.
  destruct (last_visit s !! id); simpl;
    destruct (visit_history s !! id); simpl;
    intros [= <-]; exists id; done.
Qed.

(** C4 (what the code does): after a successful [add_box] of an id that
    the ledger did not hold, [last_visit] binds the id to [None], and both
    [calculate_equity_score] and [calculate_urgency_score] raise
    [AttributeError] for the new box instead of returning 8.0 and the
    never-visited urgency. *)
Theorem add_box_then_scores_raise (s : Optimizer) (bd : BoxData) (id : Z)
    (clk : Clock) :
  data_n_boite bd = Some id →
  is_Some (data_adresse bd) → is_Some (data_commune bd) →
  is_Some (data_cp bd) → is_Some (data_conteneur bd) →
  is_Some (data_volume_moyen bd) →
  in_catalog s id = false →
  last_visit s !! id = None →
  ∃ s', add_box s bd = (true, s')
        ∧ in_catalog s' id = true
        ∧ last_visit s' !! id = Some None
        ∧ calculate_equity_score s' clk id = Raise AttributeError
        ∧ calculate_urgency_score s' clk id = Raise AttributeError.
Proof.
  intros Hid Ha Hc Hp Hk Hv Hcat Hlv.
  destruct (add_box_ok s bd id Hid Ha Hc Hp Hk Hv Hcat)
    as (s' & Hadd & Hin & Hlv' & _).
  assert (Hnone : last_visit s' !! id = Some None).
  { rewrite Hlv', Hlv. apply lookup_insert_eq. }
  pose proof (days_since_none_value s' clk id Hnone) as Hd.
  exists s'. repeat split; try done.
  - unfold calculate_equity_score. by rewrite Hd.
  - unfold calculate_urgency_score. by rewrite Hd.
Qed.

Lemma add_box_then_scores_raise_witness :
  ∃ s', add_box ex_visited ex_box_data = (true, s')
        ∧ calculate_equity_score s' (ex_clock 0) 7 = Raise AttributeError
        ∧ calculate_urgency_score s' (ex_clock 0) 7 = Raise AttributeError.
Proof.
  destruct (add_box_then_scores_raise ex_visited ex_box_data 7 (ex_clock 0))
    as (s' & H1 & _ & _ & H2 & H3).
  1, 7, 8: reflexivity.
  1-5: simpl; eauto.
  by exists s'.
Defined.

Lemma remove_box_success_inv (s s' : Optimizer) (id : Z) :
  remove_box s id = (true, s') →
  in_catalog s id = true
  ∧ df s' = filter (λ r, n_boite r ≠ id) (df s)
  ∧ last_visit s' = delete id (last_visit s)
  ∧ visit_history s' = delete id (visit_history s)
  ∧ _cache_valid s' = _cache_valid s
  ∧ _score_cache s' = delete id (_score_cache s).
Proof.
  unfold remove_box. destruct (in_catalog s id); simpl; [|done].
  by intros [= <-].
Qed.

Lemma update_box_success_inv (s s' : Optimizer) (id : Z)
    (bd : BoxUpdate) :
  update_box s id bd = (true, s') →
  in_catalog s id = true
  ∧ df s' = map (update_row id bd) (df s)
  ∧ last_visit s' = last_visit s
  ∧ _cache_valid s' = false
  ∧ _score_cache s' = ∅.
Proof.
  unfold update_box. destruct (in_catalog s id); simpl; [|done].
  by intros [= <-].
Qed.

(** After [mark_visit], a successful [add_box], a successful [remove_box]
    or a successful [update_box], the next read of
    [calculate_profitability_score] for the affected box, at any later
    clock reading, takes the path past the cache: its outcome, a score or
    an exception, is the outcome of the computation from the catalog and
    the ledger of the new state. *)
Lemma cache_coherence (s : Optimizer) (id : Z) (clk' : Clock) :
  (∀ clk level, ∃ s',
      mark_visit s clk id level = Ok s'
      ∧ calculate_profitability_score s' clk' id
        = compute_profitability s' clk' id)
  ∧ (∀ bd s', add_box s bd = (true, s') →
              data_n_boite bd = Some id →
              calculate_profitability_score s' clk' id
              = compute_profitability s' clk' id)
  ∧ (∀ s', remove_box s id = (true, s') →
           calculate_profitability_score s' clk' id
           = compute_profitability s' clk' id)
  ∧ (∀ bd s', update_box s id bd = (true, s') →
              calculate_profitability_score s' clk' id
              = compute_profitability s' clk' id).
Proof.
  split; [|split; [|split]].
  - intros clk level. destruct (mark_visit_ok s clk id level) as [b ->].
    eexists. split; [reflexivity|]. apply profitability_uncached. by left.
  - intros bd s' Hadd _.
    destruct (add_box_success_inv s s' bd Hadd) as (_ & _ & Hv & _).
    apply profitability_uncached. by left.
  - intros s' Hrem.
    destruct (remove_box_success_inv s s' id Hrem) as (_ & _ & _ & _ & _ & Hc).
    apply profitability_uncached. right. rewrite Hc. apply lookup_delete_eq.
  - intros bd s' Hupd.
    destruct (update_box_success_inv s s' id bd Hupd) as (_ & _ & _ & Hv & _).
    apply profitability_uncached. by left.
Qed.

Lemma cache_coherence_witness :
  calculate_profitability_score ex_cached (ex_clock 3) 1
  = Ok (profitability_score (never_visited_bundle ex_fresh 1 5))
  ∧ calculate_profitability_score (remove_box ex_cached 1).2 (ex_clock 3) 1
    = compute_profitability (remove_box ex_cached 1).2 (ex_clock 3) 1
  ∧ calculate_profitability_score
      (update_box ex_cached 1 ex_box_update).2 (ex_clock 3) 1
    = compute_profitability
        (update_box ex_cached 1 ex_box_update).2 (ex_clock 3) 1.
Proof.
  destruct (cache_coherence ex_cached 1 (ex_clock 3)) as (_ & _ & Hr & Hu).
  split; [reflexivity|]. split.
  - apply Hr. reflexivity.
  - apply (Hu ex_box_update). reflexivity.
Defined.

(** The computation returns a score unless the ledger binds the box to
    [None]. *)
Lemma compute_profitability_returns (s : Optimizer) (clk : Clock) (id : Z) :
  last_visit s !! id ≠ Some None →
  ∃ p, compute_profitability s clk id = Ok p.
Proof.
  intros Hlv.
  unfold compute_profitability, calculate_urgency_score,
    calculate_equity_score, calculate_days_since_last_visit.
  destruct (last_visit s !! id) as [[lv|]|]; [|done|].
  - destruct (tzinfo lv); simpl; eauto.
  - simpl; eauto.
Qed.

Lemma compute_profitability_none_value (s : Optimizer) (clk : Clock)
    (id : Z) :
  last_visit s !! id = Some None →
  compute_profitability s clk id = Raise AttributeError.
Proof.
  intros Hlv. unfold compute_profitability, calculate_urgency_score.
  by rewrite (days_since_none_value s clk id Hlv).
Qed.

(** C5 (what the code does): the read that follows a mutation never serves
    a value cached before it, but it does not always return a value.
    After [mark_visit], and after a successful [remove_box], the next
    [calculate_profitability_score] for the box returns the score computed
    from the catalog and the ledger of the new state.  After a successful
    [add_box] of an id that the ledger did not hold, the ledger binds the
    id to [None] and the read raises [AttributeError] instead of returning
    a score; the read after a successful [update_box] returns the computed
    score unless the ledger binds the box to [None], and raises then. *)
Theorem read_after_mutation (s : Optimizer) (id : Z) (clk' : Clock) :
  (∀ clk level, ∃ s' p,
      mark_visit s clk id level = Ok s'
      ∧ calculate_profitability_score s' clk' id = Ok p
      ∧ compute_profitability s' clk' id = Ok p)
  ∧ (∀ s', remove_box s id = (true, s') →
           ∃ p, calculate_profitability_score s' clk' id = Ok p
                ∧ compute_profitability s' clk' id = Ok p)
  ∧ (∀ bd s', add_box s bd = (true, s') →
              data_n_boite bd = Some id →
              last_visit s !! id = None →
              last_visit s' !! id = Some None
              ∧ calculate_profitability_score s' clk' id
                = Raise AttributeError)
  ∧ (∀ bu s', update_box s id bu = (true, s') →
              last_visit s !! id = Some None →
              calculate_profitability_score s' clk' id
              = Raise AttributeError)
  ∧ (∀ bu s', update_box s id bu = (true, s') →
              last_visit s !! id ≠ Some None →
              ∃ p, calculate_profitability_score s' clk' id = Ok p
                   ∧ compute_profitability s' clk' id = Ok p).
Proof.
  destruct (cache_coherence s id clk') as (Hm & Ha & Hr & Hu).
  split; [|split; [|split; [|split]]].
  - intros clk level. destruct (Hm clk level) as (s' & Hmark & Heq).
    destruct (compute_profitability_returns s' clk' id) as [p Hp].
    { destruct (mark_visit_ok s clk id level) as [b Hb].
      rewrite Hb in Hmark. injection Hmark as <-. simpl.
      by rewrite lookup_insert_eq. }
    exists s', p. rewrite Heq. done.
  - intros s' Hrem.
    destruct (compute_profitability_returns s' clk' id) as [p Hp].
    { destruct (remove_box_success_inv s s' id Hrem) as (_ & _ & -> & _).
      by rewrite lookup_delete_eq. }
    exists p. by rewrite (Hr s' Hrem).
  - intros bd s' Hadd Hid Hlv.
    assert (Hnone : last_visit s' !! id = Some None).
    { assert (Hcat : in_catalog s id = false).
      { revert Hadd. unfold add_box. rewrite Hid.
        destruct (data_adresse bd), (data_commune bd), (data_cp bd),
          (data_conteneur bd), (data_volume_moyen bd); try done.
        by destruct (in_catalog s id). }
      assert (Hf : is_Some (data_adresse bd) ∧ is_Some (data_commune bd)
                   ∧ is_Some (data_cp bd) ∧ is_Some (data_conteneur bd)
                   ∧ is_Some (data_volume_moyen bd)).
      { revert Hadd. unfold add_box. rewrite Hid.
        destruct (data_adresse bd), (data_commune bd), (data_cp bd),
          (data_conteneur bd), (data_volume_moyen bd); done. }
      destruct Hf as (H1 & H2 & H3 & H4 & H5).
      destruct (add_box_ok s bd id Hid H1 H2 H3 H4 H5 Hcat)
        as (s'' & Hadd' & _ & Hlv' & _).
      rewrite Hadd in Hadd'. injection Hadd' as <-.
      rewrite Hlv', Hlv. apply lookup_insert_eq. }
    split; [exact Hnone|].
    rewrite (Ha bd s' Hadd Hid).
    by apply compute_profitability_none_value.
  - intros bu s' Hupd Hlv. rewrite (Hu bu s' Hupd).
    apply compute_profitability_none_value.
    destruct (update_box_success_inv s s' id bu Hupd) as (_ & _ & -> & _).
    exact Hlv.
  - intros bu s' Hupd Hlv.
    destruct (compute_profitability_returns s' clk' id) as [p Hp].
    { destruct (update_box_success_inv s s' id bu Hupd) as (_ & _ & -> & _).
      exact Hlv. }
    exists p. by rewrite (Hu bu s' Hupd).
Qed.

Lemma read_after_mutation_witness :
  (∃ p, calculate_profitability_score (remove_box ex_cached 1).2
          (ex_clock 3) 1 = Ok p)
  ∧ last_visit (add_box ex_visited ex_box_data).2 !! 7%Z = Some None
  ∧ calculate_profitability_score (add_box ex_visited ex_box_data).2
      (ex_clock 3) 7 = Raise AttributeError
  ∧ (∃ p, calculate_profitability_score
            (update_box ex_cached 1 ex_box_update).2 (ex_clock 3) 1 = Ok p).
Proof.
  split; [|split; [|split]].
  - destruct (read_after_mutation ex_cached 1 (ex_clock 3))
      as (_ & Hr & _).
    destruct (Hr (remove_box ex_cached 1).2) as (p & Hp & _);
      [reflexivity|]. by exists p.
  - destruct (read_after_mutation ex_visited 7 (ex_clock 3))
      as (_ & _ & Ha & _).
    by destruct (Ha ex_box_data (add_box ex_visited ex_box_data).2)
      as [H _]; [reflexivity..|].
  - destruct (read_after_mutation ex_visited 7 (ex_clock 3))
      as (_ & _ & Ha & _).
    by destruct (Ha ex_box_data (add_box ex_visited ex_box_data).2)
      as [_ H]; [reflexivity..|].
  - destruct (read_after_mutation ex_cached 1 (ex_clock 3))
      as (_ & _ & _ & _ & Hu).
    destruct (Hu ex_box_update
                (update_box ex_cached 1 ex_box_update).2) as (p & Hp & _);
      [reflexivity| |by exists p].
    change (last_visit ex_cached !! 1%Z ≠ Some None). done.
Defined.

(** C2 (as amended): after a successful [add_box] or [update_box] the
    validity flag is false and the cached map is empty; after a successful
    [remove_box] the entry of the removed box is gone while the validity
    flag and the other entries are as they were. *)
Theorem cache_after_catalog_mutation (s s' : Optimizer) :
  (∀ bd, add_box s bd = (true, s') →
         _cache_valid s' = false ∧ _score_cache s' = ∅)
  ∧ (∀ id bd, update_box s id bd = (true, s') →
              _cache_valid s' = false ∧ _score_cache s' = ∅)
  ∧ (∀ id, remove_box s id = (true, s') →
           _cache_valid s' = _cache_valid s
           ∧ _score_cache s' = delete id (_score_cache s)
           ∧ _score_cache s' !! id = None).
Proof.
  split; [|split].
  - intros bd Hadd.
    by destruct (add_box_success_inv s s' bd Hadd) as (_ & _ & ? & ?).
  - intros id bd Hupd.
    by destruct (update_box_success_inv s s' id bd Hupd)
      as (_ & _ & _ & ? & ?).
  - intros id Hrem.
    destruct (remove_box_success_inv s s' id Hrem)
      as (_ & _ & _ & _ & Hv & Hc).
    repeat split; [done..|]. rewrite Hc. apply lookup_delete_eq.
Qed.

Lemma cache_after_catalog_mutation_witness :
  (_cache_valid (add_box ex_prewarmed ex_box_data).2 = false
   ∧ _score_cache (add_box ex_prewarmed ex_box_data).2 = ∅)
  ∧ (_cache_valid (remove_box ex_prewarmed 1).2 = _cache_valid ex_prewarmed
     ∧ _score_cache (remove_box ex_prewarmed 1).2
       = delete 1%Z (_score_cache ex_prewarmed)
     ∧ _score_cache (remove_box ex_prewarmed 1).2 !! 1%Z = None).
Proof.
  split.
  - destruct (cache_after_catalog_mutation ex_prewarmed
                (add_box ex_prewarmed ex_box_data).2) as (H & _ & _).
    apply (H ex_box_data). reflexivity.
  - destruct (cache_after_catalog_mutation ex_prewarmed
                (remove_box ex_prewarmed 1).2) as (_ & _ & H).
    apply (H 1%Z). reflexivity.
Defined.

(** ** The pre-warm pass of the constructor *)

Lemma box_scores_never_visited (s : Optimizer) (clk : Clock) (id : Z)
    (cw : Z) :
  last_visit s !! id = None →
  _cache_valid s = false →
  box_scores s clk id cw = Ok (never_visited_bundle s id cw).
Proof.
  intros Hlv Hv. pose proof (days_since_never s clk id Hlv) as Hd.
  unfold box_scores.
  rewrite (urgency_of_days_eq _ _ _ _ Hd), (equity_of_days_eq _ _ _ _ Hd).
  rewrite profitability_uncached by (by left).
  unfold compute_profitability.
  rewrite (urgency_of_days_eq _ _ _ _ Hd), (equity_of_days_eq _ _ _ _ Hd), Hd.
  reflexivity.
Qed.

Lemma precompute_loop_never_visited (clk : Clock) (cw : Z)
    (rows : list BoxRow) :
  ∀ s, last_visit s = ∅ →
       _cache_valid s = false →
       precompute_loop rows s clk cw
       = Ok (set_cache s
               (foldl (λ c r, <[n_boite r
                                := never_visited_bundle s (n_boite r) cw]> c)
                      (_score_cache s) rows)
               false).
Proof.
  induction rows as [|box rest IH]; intros s Hlv Hv.
  - simpl. rewrite <- Hv. by destruct s.
  - simpl. rewrite box_scores_never_visited; [|by rewrite Hlv|done].
    simpl. rewrite IH; [reflexivity|exact Hlv|exact Hv].
Qed.

(** The constructor returns for every table with at least one week column:
    the flag is raised over one never-visited bundle per row, each computed
    with the catalog-global week of [get_current_week]. *)
Lemma init_ok (tz : TzInfo) (columns : list string) (rows : list BoxRow)
    (clk : Clock) :
  columns ≠ [] →
  __init__ tz columns rows clk
  = Ok (set_cache (empty_optimizer tz columns rows)
          (foldl (λ c r, <[n_boite r
                           := never_visited_bundle
                                (empty_optimizer tz columns rows) (n_boite r)
                                (get_current_week
                                   (empty_optimizer tz columns rows))]> c)
                 ∅ rows)
          true).
Proof.
  intros Hc. unfold __init__. destruct columns as [|c0 cs]; [done|].
  unfold _precompute_all_scores.
  rewrite precompute_loop_never_visited by done. reflexivity.
Qed.

Lemma ex_init (clk : Clock) :
  __init__ zurich ex_columns ex_rows clk = Ok ex_prewarmed.
Proof. rewrite init_ok by done. reflexivity. Qed.

(** C2 (counterexample): on the optimizer the constructor returns for the
    example catalog, [remove_box 1] succeeds and leaves the cache valid and
    not empty. *)
Lemma remove_box_keeps_cache_valid :
  ∃ s s', __init__ zurich ex_columns ex_rows (ex_clock 0) = Ok s
          ∧ remove_box s 1 = (true, s')
          ∧ _cache_valid s' = true
          ∧ _score_cache s' ≠ ∅.
Proof.
  exists ex_prewarmed, (remove_box ex_prewarmed 1).2.
  split; [apply ex_init|]. split; [reflexivity|]. split; [reflexivity|].
  intros H. apply (f_equal (λ m, m !! 2%Z)) in H.
  simpl in H. rewrite lookup_delete_ne, lookup_insert_eq, lookup_empty in H;
    done.
Qed.

Section PrewarmWeek.
Local Open Scope R_scope.

(** C3 (what the code does): on the example catalog the constructor caches
    for box 2 a [fill_score] computed with the catalog-global week 5, which
    is 0.0, while [calculate_fill_score] with the box's own current week,
    week 1, is 6: the two differ. *)
Theorem prewarm_fill_score_uses_global_week :
  ∃ s b, __init__ zurich ex_columns ex_rows (ex_clock 0) = Ok s
         ∧ _score_cache s !! 2%Z = Some b
         ∧ get_current_week s = 5%Z
         ∧ get_current_week_for_box s 2 = 1%Z
         ∧ fill_score b = calculate_fill_score s 2 (Some (get_current_week s))
         ∧ fill_score b = 0.0
         ∧ calculate_fill_score s 2 (Some (get_current_week_for_box s 2)) = 6
         ∧ calculate_fill_score s 2 None = 6.
Proof.
  exists ex_prewarmed, (never_visited_bundle ex_fresh 2 5).
  split; [apply ex_init|].
  split; [apply lookup_insert_eq|].
  do 4 (split; [reflexivity|]).
  assert (H : Rmax 0 (np_mean [6] + 0) = 6).
  { unfold np_mean, sum_R. simpl. unfold Rmax; destruct Rle_dec; lra. }
  split; exact H.
Qed.

End PrewarmWeek.

(** ** Saving and loading the ledger *)

Lemma py_int_py_str (k : Z) : py_int (py_str k) = Some k.
Proof.
  unfold py_int, py_str.
  rewrite NilZero.isi.
  - simpl. by rewrite DecimalZ.of_to.
  - destruct k; simpl; [done| |done].
    intros [= H]. by apply Unsigned.to_uint_nonnil in H.
  - destruct k; simpl; [done|done|].
    intros [= H]. by apply Unsigned.to_uint_nonnil in H.
Qed.

Lemma reloaded_fields (tz : TzInfo) (dt : datetime) :
  wall_us (reloaded tz dt) = wall_us dt
  ∧ tzinfo (reloaded tz dt)
    = Some (FixedOffset (match tzinfo dt with
                         | Some z => utcoffset z
                         | None => utcoffset tz
                         end)).
Proof. unfold reloaded. by destruct dt as [w [z|]]. Qed.

(** Inserting the pairs of [map_to_list m] one after the other rebuilds the
    map. *)
Lemma foldl_insert_lookup {A B : Type} (f : A → B) (l : list (Z * A)) :
  NoDup l.*1 →
  ∀ (acc : gmap Z B) (i : Z),
    foldl (λ a kv, <[kv.1 := f kv.2]> a) acc l !! i
    = match (list_to_map l : gmap Z A) !! i with
      | Some v => Some (f v)
      | None => acc !! i
      end.
Proof.
  induction l as [|[k v] l IH]; intros Hnd acc i; simpl.
  - by rewrite lookup_empty.
  - apply NoDup_cons in Hnd as [Hk Hnd]. rewrite IH by done.
    destruct (decide (i = k)) as [->|Hne].
    + rewrite lookup_insert_eq.
      rewrite (not_elem_of_list_to_map_1 _ _ Hk).
      by rewrite lookup_insert_eq.
    + assert (Hki : k ≠ i) by congruence.
      by rewrite !(lookup_insert_ne _ k i).
Qed.

Lemma foldl_insert_map_to_list {A B : Type} (f : A → B) (m : gmap Z A) :
  foldl (λ a kv, <[kv.1 := f kv.2]> a) ∅ (map_to_list m) = f <$> m.
Proof.
  apply map_eq. intros i.
  rewrite foldl_insert_lookup by apply NoDup_fst_map_to_list.
  rewrite list_to_map_to_list, lookup_fmap, lookup_empty.
  by destruct (m !! i).
Qed.

(** What [save_state] writes for a list of ledger items without a [None]
    value, and what the loop of [load_state] rebuilds from it. *)
Lemma save_load_last_visit (tz tz' : TzInfo)
    (l : list (Z * option datetime)) :
  Forall (λ kv, is_Some kv.2) l →
  ∃ items,
    mapM (λ kv, t ← save_timestamp tz kv.2; mret (py_str kv.1, t)) l
    = Ok items
    ∧ ∀ acc, load_last_visit tz' items acc
             = (foldl (λ a (kv : Z * option datetime),
                         <[kv.1 := reloaded tz <$> kv.2]> a) acc l,
                true).
Proof.
  induction 1 as [|[k v] l [dt Hv] _ (items & Hitems & Hload)].
  - exists []. by split.
  - simpl in Hv. subst v.
    exists ((py_str k, isoformat (match tzinfo dt with
                                  | Some _ => dt
                                  | None => replace_tzinfo dt tz
                                  end)) :: items).
    split.
    + simpl. simpl in Hitems. rewrite Hitems.
      by destruct (tzinfo dt).
    + intros acc. simpl. rewrite py_int_py_str, Hload. simpl.
      do 3 f_equal. unfold reloaded.
      by destruct dt as [w [z|]].
Qed.

Lemma save_load_visit_history (l : list (Z * list VisitRecord)) :
  ∀ acc, load_visit_history ((λ kv, (py_str kv.1, kv.2)) <$> l) acc
         = Some (foldl (λ a kv, <[kv.1 := Datatypes.id kv.2]> a) acc l).
Proof.
  induction l as [|[k v] l IH]; intros acc; simpl; [done|].
  by rewrite py_int_py_str, IH.
Qed.

(** The whole round trip as an equation between ledgers. *)
Lemma save_load_state (s s0 : Optimizer) (filename : string)
    (fs : gmap string StateFile) :
  (∀ k v, last_visit s !! k = Some v → is_Some v) →
  ∃ fs', save_state s filename fs = Ok fs'
         ∧ load_state s0 filename fs'
           = set_visit_history
               (set_last_visit s0
                  ((λ v : option datetime, reloaded (timezone s) <$> v)
                     <$> last_visit s))
               (visit_history s).
Proof.
  intros Hsome.
  destruct (save_load_last_visit (timezone s) (timezone s0)
              (map_to_list (last_visit s))) as (items & Hitems & Hload).
  { apply Forall_forall. intros [k v] Hin.
    apply elem_of_map_to_list in Hin. simpl. eauto. }
  unfold save_state. rewrite Hitems. simpl.
  eexists. split; [reflexivity|].
  unfold load_state. rewrite lookup_insert_eq. simpl.
  rewrite Hload, save_load_visit_history.
  rewrite (foldl_insert_map_to_list
             (λ v : option datetime, reloaded (timezone s) <$> v)).
  rewrite (foldl_insert_map_to_list Datatypes.id).
  by rewrite map_fmap_id.
Qed.

(** C9: for a ledger whose [last_visit] values are all timestamps, saving
    and then loading (into any optimizer) gives a ledger with the same box
    ids, where each timestamp has the wall-clock fields it had and the UTC
    offset it had, or the offset of the optimizer's timezone when it was
    naive, and where the visit histories are the ones saved. *)
Theorem save_load_roundtrip (s s0 : Optimizer) (filename : string)
    (fs : gmap string StateFile) :
  (∀ k v, last_visit s !! k = Some v → is_Some v) →
  ∃ fs', save_state s filename fs = Ok fs'
         ∧ (∀ k dt, last_visit s !! k = Some (Some dt) →
              ∃ dt', last_visit (load_state s0 filename fs') !! k
                     = Some (Some dt')
                     ∧ wall_us dt' = wall_us dt
                     ∧ utcoffset <$> tzinfo dt'
                       = Some (match tzinfo dt with
                               | Some z => utcoffset z
                               | None => utcoffset (timezone s)
                               end))
         ∧ (∀ k, last_visit s !! k = None →
                 last_visit (load_state s0 filename fs') !! k = None)
         ∧ visit_history (load_state s0 filename fs') = visit_history s.
Proof.
  intros Hsome.
  destruct (save_load_state s s0 filename fs Hsome) as (fs' & Hsave & Hload).
  exists fs'. split; [exact Hsave|]. rewrite Hload. simpl.
  split; [|split; [|done]].
  - intros k dt Hk. exists (reloaded (timezone s) dt).
    destruct (reloaded_fields (timezone s) dt) as [Hw Ht].
    split; [by rewrite lookup_fmap, Hk|].
    split; [exact Hw|]. by rewrite Ht.
  - intros k Hk. by rewrite lookup_fmap, Hk.
Qed.

Lemma ex_ledger_timestamps (k : Z) (v : option datetime) :
  last_visit ex_ledger !! k = Some v → is_Some v.
Proof.
  unfold ex_ledger. simpl. intros H.
  apply lookup_insert_Some in H as [[_ <-]|[_ H]]; [eauto|].
  apply lookup_insert_Some in H as [[_ <-]|[_ H]]; [eauto|].
  by rewrite lookup_empty in H.
Qed.

Lemma save_load_roundtrip_witness :
  ∃ fs', save_state ex_ledger "optimizer_state.json" ∅ = Ok fs'
         ∧ (∃ dt', last_visit
                     (load_state ex_fresh "optimizer_state.json" fs') !! 2%Z
                   = Some (Some dt')
                   ∧ wall_us dt' = 5%Z
                   ∧ utcoffset <$> tzinfo dt' = Some (utcoffset zurich))
         ∧ visit_history (load_state ex_fresh "optimizer_state.json" fs')
           = visit_history ex_ledger.
Proof.
  destruct (save_load_roundtrip ex_ledger ex_fresh "optimizer_state.json" ∅
              ex_ledger_timestamps) as (fs' & Hs & Hlv & _ & Hvh).
  exists fs'. split; [exact Hs|]. split; [|exact Hvh].
  apply (Hlv 2%Z {| wall_us := 5; tzinfo := None |}). reflexivity.
Defined.

(** A ledger key bound to [None], as [add_box] leaves it, makes
    [save_state] raise before anything is written. *)
Lemma save_state_none_value_raises (s : Optimizer) (filename : string)
    (fs : gmap string StateFile) (k : Z) :
  last_visit s !! k = Some None →
  save_state s filename fs = Raise AttributeError.
Proof.
  intros Hk. unfold save_state.
  assert (Hex : Exists (λ kv : Z * option datetime, kv.2 = None)
                  (map_to_list (last_visit s))).
  { apply Exists_exists. exists (k, None). split; [|done].
    by apply elem_of_map_to_list. }
  assert (Hm : mapM (λ kv : Z * option datetime,
                       t ← save_timestamp (timezone s) kv.2;
                       mret (py_str kv.1, t))
                 (map_to_list (last_visit s)) = Raise AttributeError).
  { induction (map_to_list (last_visit s)) as [|[k' [dt|]] l IH];
      [by apply Exists_nil in Hex| |done].
    apply Exists_cons in Hex as [Hex|Hex]; [done|].
    simpl. simpl in IH. rewrite (IH Hex). by destruct (tzinfo dt). }
  by rewrite Hm.
Qed.

(** ** Never-visited boxes and worked values *)

Section Scenario.
Local Open Scope R_scope.

(** A box of the catalog whose id is not a key of the ledger scores 8.0 for
    equity and, for urgency, [min(volume_moyen * 0.8, 8.0)] when
    [volume_moyen] is known and positive and 3.0 otherwise. *)
Lemma never_visited_scores (s : Optimizer) (clk : Clock) (id : Z) :
  in_catalog s id = true →
  last_visit s !! id = None →
  ∃ row rest,
    box_rows s id = row :: rest
    ∧ calculate_equity_score s clk id = Ok 8.0
    ∧ calculate_urgency_score s clk id
      = Ok (match volume_moyen row with
            | Some avg_fill =>
                if Rlt_dec 0 avg_fill then Rmin (avg_fill * 0.8) 8.0 else 3.0
            | None => 3.0
            end).
Proof.
  intros Hcat Hlv.
  destruct (box_rows_present s id Hcat) as (row & rest & Hrows & _).
  pose proof (days_since_never s clk id Hlv) as Hd.
  exists row, rest. split; [done|]. split.
  - by rewrite (equity_of_days_eq _ _ _ _ Hd).
  - rewrite (urgency_of_days_eq _ _ _ _ Hd). simpl. by rewrite Hrows.
Qed.

(** Box 1 of the example, never visited, average fill 9.0: urgency 7.2 and
    equity 8.0. *)
Example ex_never_visited_box1 :
  calculate_urgency_score ex_fresh (ex_clock 0) 1 = Ok 7.2
  ∧ calculate_equity_score ex_fresh (ex_clock 0) 1 = Ok 8.0.
Proof.
  destruct (never_visited_scores ex_fresh (ex_clock 0) 1)
    as (row & rest & Hrows & He & Hu); [reflexivity..|].
  injection Hrows as <- _. split; [|exact He].
  rewrite Hu. simpl. f_equal.
  destruct (Rlt_dec 0 9.0); [|lra].
  unfold Rmin; destruct Rle_dec; lra.
Qed.

(** Box 1 has a flat history of 5.0: no trend, [fill_score] 5.0 and
    [expected_fill] 5.0 * 0.7 + 9.0 * 0.3 = 6.2. *)
Example ex_fill_box1 :
  calculate_fill_score ex_fresh 1 None = 5
  ∧ calculate_expected_fill ex_fresh 1 = 6.2.
Proof.
  assert (H : Rmax 0 (np_mean [5; 5; 5; 5]
                      + Rmin (polyfit_slope [5; 5; 5; 5] * 0.5) 2.0) = 5).
  { unfold np_mean, polyfit_slope, sum_R. simpl.
    replace ((1 + 1 + 1 + 1)
             * (0 * 5 + (1 * 5 + ((1 + 1) * 5 + ((1 + 1 + 1) * 5 + 0))))
             - (0 + (1 + (1 + 1 + (1 + 1 + 1 + 0))))
               * (5 + (5 + (5 + (5 + 0))))) with 0 by lra.
    unfold Rdiv at 2. rewrite Rmult_0_l.
    unfold Rmin, Rmax; repeat destruct Rle_dec; lra. }
  split; [exact H|].
  change (Rmin (Rmax 0 (np_mean [5; 5; 5; 5]
                        + Rmin (polyfit_slope [5; 5; 5; 5] * 0.5) 2.0) * 0.7
                + 9.0 * 0.3) 10.0 = 6.2).
  rewrite H. unfold Rmin; destruct Rle_dec; lra.
Qed.

(** Ten days after the visit of box 1 the equity score is
    3.5 + (10 - 7) * 0.2 = 4.1. *)
Example ex_equity_day_10 :
  calculate_equity_score ex_visited (ex_clock 10) 1 = Ok 4.1.
Proof.
  rewrite (equity_of_days_eq _ _ _ _ (ex_days_since 10 ltac:(lia))).
  simpl. f_equal. lra.
Qed.

End Scenario.

(** * Further properties of the engine *)

(** ** Ranges and shape of the component scores *)

Section ScoreShape.
Local Open Scope R_scope.

Lemma sum_R_bounds (lo hi : R) (l : list R) :
  Forall (λ x, lo <= x <= hi) l →
  INR (length l) * lo <= sum_R l <= INR (length l) * hi.
Proof.
  induction 1 as [|x l [Hlo Hhi] _ IH].
  - simpl. lra.
  - change (sum_R (x :: l)) with (x + sum_R l).
    change (length (x :: l)) with (S (length l)). rewrite S_INR. lra.
Qed.

Lemma np_mean_bounds (lo hi : R) (l : list R) :
  l ≠ [] →
  Forall (λ x, lo <= x <= hi) l →
  lo <= np_mean l <= hi.
Proof.
  intros Hne Hl. destruct (sum_R_bounds lo hi l Hl) as [H1 H2].
  assert (Hn : 0 < INR (length l)).
  { destruct l; [done|]. apply lt_0_INR. simpl. lia. }
  unfold np_mean. split.
  - apply Rmult_le_reg_r with (INR (length l)); [done|].
    unfold Rdiv. rewrite Rmult_assoc, Rinv_l by lra. lra.
  - apply Rmult_le_reg_r with (INR (length l)); [done|].
    unfold Rdiv. rewrite Rmult_assoc, Rinv_l by lra. lra.
Qed.

Lemma recent_scores_observed (s : Optimizer) (row : BoxRow) (cw : Z) (x : R) :
  x ∈ recent_scores s row cw → ∃ col, observation row col = Some x.
Proof.
  unfold recent_scores. intros Hx.
  apply list_elem_of_omap in Hx as (i & _ & Hi).
  destruct (has_column s _); [eauto|done].
Qed.

(** X1: when every observation of the box lies in [[0, 10]],
    [calculate_fill_score] lies in [[0, 12]] (the mean plus the capped trend
    bonus), whatever current week is passed. *)
Theorem fill_score_range (s : Optimizer) (id : Z) (week : option Z) :
  (∀ row rest col x, box_rows s id = row :: rest →
                     observation row col = Some x → 0 <= x <= 10) →
  0 <= calculate_fill_score s id week <= 12.
Proof.
  intros Hobs. unfold calculate_fill_score.
  destruct (box_rows s id) as [|row rest] eqn:Hrows; [lra|].
  set (cw := match week with Some w => w | None => _ end).
  destruct (recent_scores s row cw) as [|y l] eqn:Hsc; [lra|].
  assert (Hm : 0 <= np_mean (y :: l) <= 10).
  { apply np_mean_bounds; [done|]. apply Forall_forall. intros x Hx.
    rewrite <- Hsc in Hx.
    destruct (recent_scores_observed _ _ _ _ Hx) as [col Hcol]. eauto. }
  destruct (decide (2 ≤ length (y :: l))%nat);
    unfold Rmin, Rmax; repeat destruct Rle_dec; lra.
Qed.

Lemma ex_box1_observations (row : BoxRow) (rest : list BoxRow) (col : string)
    (x : R) :
  box_rows ex_fresh 1 = row :: rest →
  observation row col = Some x → 0 <= x <= 10.
Proof.
  intros [= <- _]. unfold observation, ex_box1. simpl. intros H.
  repeat (apply lookup_insert_Some in H as [[_ <-]|[_ H]]; [lra|]).
  by rewrite lookup_empty in H.
Qed.

Lemma fill_score_range_witness :
  0 <= calculate_fill_score ex_fresh 1 None <= 12.
Proof. apply (fill_score_range ex_fresh 1 None ex_box1_observations). Defined.

Lemma expected_fill_bounds (s : Optimizer) (id : Z) :
  (∀ row rest v, box_rows s id = row :: rest →
                 volume_moyen row = Some v → 0 <= v) →
  0 <= calculate_expected_fill s id <= 10.
Proof.
  intros Hv. unfold calculate_expected_fill.
  assert (Hf : 0 <= calculate_fill_score s id None).
  { unfold calculate_fill_score.
    destruct (box_rows s id) as [|row rest]; [lra|].
    destruct (recent_scores s row _); [lra|].
    unfold Rmax; destruct Rle_dec; lra. }
  destruct (box_rows s id) as [|row rest] eqn:Hrows.
  - unfold Rmin; destruct Rle_dec; lra.
  - destruct (volume_moyen row) as [v|] eqn:Hvol.
    + pose proof (Hv row rest v eq_refl Hvol).
      unfold Rmin; destruct Rle_dec; lra.
    + unfold Rmin; destruct Rle_dec; lra.
Qed.

(** X2: when the long-run average of the box is missing or not negative,
    [calculate_expected_fill] lies in [[0, 10]]. *)
Theorem expected_fill_range (s : Optimizer) (id : Z) :
  (∀ row rest v, box_rows s id = row :: rest →
                 volume_moyen row = Some v → 0 <= v) →
  0 <= calculate_expected_fill s id <= 10.
Proof. apply expected_fill_bounds. Qed.

Lemma ex_box1_volume (row : BoxRow) (rest : list BoxRow) (v : R) :
  box_rows ex_fresh 1 = row :: rest → volume_moyen row = Some v → 0 <= v.
Proof. intros [= <- _] [= <-]. lra. Qed.

Lemma expected_fill_range_witness :
  0 <= calculate_expected_fill ex_fresh 1 <= 10.
Proof. apply (expected_fill_range ex_fresh 1 ex_box1_volume). Defined.

(** X3: for a box whose ledger value is not [None] and whose long-run
    average is missing or not negative, the profitability computed from
    the catalog and the ledger is returned and lies in [[0, 130]]. *)
Theorem profitability_range (s : Optimizer) (clk : Clock) (id : Z) :
  last_visit s !! id ≠ Some None →
  (∀ row rest v, box_rows s id = row :: rest →
                 volume_moyen row = Some v → 0 <= v) →
  ∃ p, compute_profitability s clk id = Ok p ∧ 0 <= p <= 130.
Proof.
  intros Hlv Hv.
  assert (Hd : ∃ days, calculate_days_since_last_visit s clk id = Ok days).
  { unfold calculate_days_since_last_visit.
    destruct (last_visit s !! id) as [[lv|]|]; [|done|eauto].
    destruct (tzinfo lv); eauto. }
  destruct Hd as [days Hd].
  unfold compute_profitability.
  rewrite (urgency_of_days_eq _ _ _ _ Hd), (equity_of_days_eq _ _ _ _ Hd).
  eexists. split; [reflexivity|].
  apply combine_scores_range.
  - apply (expected_fill_bounds s id Hv).
  - apply urgency_of_days_range.
  - apply equity_of_days_range.
Qed.

Lemma profitability_range_witness :
  ∃ p, compute_profitability ex_visited (ex_clock 10) 1 = Ok p
       ∧ 0 <= p <= 130.
Proof.
  apply (profitability_range ex_visited (ex_clock 10) 1).
  - unfold ex_visited. simpl. rewrite lookup_insert_eq. done.
  - exact ex_box1_volume.
Defined.

End ScoreShape.

Section ScoreOrder.
Local Open Scope R_scope.

Lemma exp_double (x : R) : exp (2 * x) = exp x * exp x.
Proof. replace (2 * x) with (x + x) by lra. apply exp_plus. Qed.

Lemma exp_3_2_gt_4 : 4 < exp (3 / 2).
Proof.
  pose proof (exp_ineq1_le (3 / 32)) as H1.
  assert (H2 : 1.196 <= exp (3 / 16)).
  { replace (3 / 16) with (2 * (3 / 32)) by lra. rewrite exp_double. nra. }
  assert (H4 : 1.43 <= exp (3 / 8)).
  { replace (3 / 8) with (2 * (3 / 16)) by lra. rewrite exp_double. nra. }
  assert (H8 : 2.04 <= exp (3 / 4)).
  { replace (3 / 4) with (2 * (3 / 8)) by lra. rewrite exp_double. nra. }
  replace (3 / 2) with (2 * (3 / 4)) by lra. rewrite exp_double. nra.
Qed.

Lemma exp_monotone (x y : R) : x <= y → exp x <= exp y.
Proof.
  intros [H| ->]; [|lra]. left. by apply exp_increasing.
Qed.

Lemma logistic_lt (x y : R) :
  x < y → 10 / (1 + exp y) < 10 / (1 + exp x).
Proof.
  intros Hxy. pose proof (exp_pos x). pose proof (exp_increasing x y Hxy).
  unfold Rdiv. apply Rmult_lt_compat_l; [lra|].
  apply Rinv_lt_contravar; [nra|lra].
Qed.

Lemma logistic_le (x y : R) :
  x <= y → 10 / (1 + exp y) <= 10 / (1 + exp x).
Proof.
  intros [H| ->]; [|lra]. left. by apply logistic_lt.
Qed.

Lemma logistic_below (x c : R) :
  0 < c → 10 < c * (1 + exp x) → 10 / (1 + exp x) < c.
Proof.
  intros Hc H. pose proof (exp_pos x).
  assert (Hq : 10 / (1 + exp x) * (1 + exp x) = 10) by (field; lra).
  nra.
Qed.

Lemma exp_3_gt_9 : 9 < exp 3.
Proof.
  pose proof exp_3_2_gt_4.
  replace 3 with (2 * (3 / 2)) by lra. rewrite exp_double. nra.
Qed.

(** Up to one day after the visit the floor 1.0 is above the logistic
    curve. *)
Lemma urgency_within_one_day (s : Optimizer) (id : Z) (d : Z) :
  (d ≤ 1)%Z → urgency_of_days s id (Some d) = 1.
Proof.
  intros Hd. unfold urgency_of_days.
  destruct (Z.leb_spec d 1); [|lia].
  pose proof exp_3_gt_9.
  pose proof (IZR_le _ _ Hd) as Hr.
  pose proof (exp_monotone 3 (-0.5 * (IZR d - 7)) ltac:(lra)).
  pose proof (logistic_bounds (-0.5 * (IZR d - 7))) as [Hpos _].
  pose proof (logistic_below (-0.5 * (IZR d - 7)) 1 ltac:(lra) ltac:(lra)).
  unfold Rmin, Rmax; repeat destruct Rle_dec; lra.
Qed.

(** X4: the urgency of a visited box is exactly 1.0 up to one day after the
    visit and exactly 2.0 on days 2 and 3 (the floors are above the
    logistic curve there); it is lower again on day 4, and from day 4 on it
    never decreases when the days increase and never exceeds 10.0. *)
Theorem urgency_shape (s : Optimizer) (id : Z) (d d' : Z) :
  ((d ≤ 1)%Z → urgency_of_days s id (Some d) = 1)
  ∧ ((1 < d ≤ 3)%Z → urgency_of_days s id (Some d) = 2)
  ∧ ((3 < d ≤ d')%Z →
     urgency_of_days s id (Some d) <= urgency_of_days s id (Some d') <= 10)
  ∧ urgency_of_days s id (Some 4%Z) < urgency_of_days s id (Some 3%Z).
Proof.
  pose proof exp_3_2_gt_4 as He.
  assert (He2 : 4 < exp 2).
  { pose proof (exp_increasing (3 / 2) 2 ltac:(lra)). lra. }
  split; [|split; [|split]].
  - apply urgency_within_one_day.
  - intros [Hd1 Hd3]. unfold urgency_of_days.
    destruct (Z.leb_spec d 1); [lia|]. destruct (Z.leb_spec d 3); [|lia].
    pose proof (IZR_le _ _ Hd3) as Hr.
    pose proof (exp_monotone 2 (-0.5 * (IZR d - 7)) ltac:(lra)).
    pose proof (logistic_bounds (-0.5 * (IZR d - 7))) as [Hpos _].
    pose proof (logistic_below (-0.5 * (IZR d - 7)) 2 ltac:(lra) ltac:(lra)).
    unfold Rmin, Rmax; repeat destruct Rle_dec; lra.
  - intros [Hd Hdd]. unfold urgency_of_days.
    destruct (Z.leb_spec d 1); [lia|]. destruct (Z.leb_spec d 3); [lia|].
    destruct (Z.leb_spec d' 1); [lia|]. destruct (Z.leb_spec d' 3); [lia|].
    pose proof (IZR_le _ _ Hdd) as Hr.
    pose proof (logistic_le (-0.5 * (IZR d' - 7)) (-0.5 * (IZR d - 7))
                  ltac:(lra)).
    pose proof (logistic_bounds (-0.5 * (IZR d - 7))) as [? ?].
    pose proof (logistic_bounds (-0.5 * (IZR d' - 7))) as [? ?].
    unfold Rmin; repeat destruct Rle_dec; lra.
  - unfold urgency_of_days. simpl.
    replace (-0.5 * (4 - 7)) with (3 / 2) by lra.
    replace (-0.5 * (3 - 7)) with 2 by lra.
    pose proof (logistic_below (3 / 2) 2 ltac:(lra) ltac:(lra)).
    pose proof (logistic_bounds (3 / 2)) as [? ?].
    pose proof (logistic_bounds 2) as [? ?].
    unfold Rmin, Rmax; repeat destruct Rle_dec; lra.
Qed.

Lemma urgency_shape_witness :
  urgency_of_days ex_visited 1 (Some 0%Z) = 1
  ∧ urgency_of_days ex_visited 1 (Some 2%Z) = 2
  ∧ urgency_of_days ex_visited 1 (Some 5%Z)
    <= urgency_of_days ex_visited 1 (Some 9%Z) <= 10.
Proof.
  destruct (urgency_shape ex_visited 1 0 0) as (H1 & _).
  destruct (urgency_shape ex_visited 1 2 0) as (_ & H2 & _).
  destruct (urgency_shape ex_visited 1 5 9) as (_ & _ & H3 & _).
  split; [apply H1; lia|]. split; [apply H2; lia|apply H3; lia].
Defined.

(** Turns the integer comparisons of the context into comparisons of
    reals; a strict one becomes [a + 1 <= b]. *)
Ltac Z_to_R :=
  repeat match goal with
         | H : (_ ≤ _)%Z |- _ => apply IZR_le in H
         | H : (_ < _)%Z |- _ =>
             apply Zlt_le_succ, IZR_le in H; rewrite succ_IZR in H
         end.

(** X5: the equity score is 0.0 up to day 0 and at its ceiling 15.0 from
    day 100 on; between two days [d < d'] from 0 to 100 it grows strictly,
    and over all days it never decreases.  The one pair left out of both
    comparisons is (30, 31): there the last two formulas,
    [3.5 + (30 - 7) * 0.2] and [8.0 + (31 - 30) * 0.1], meet at 8.1, so
    that there is no growth from day 30 to day 31. *)
Theorem equity_monotone (d d' : Z) :
  ((0 ≤ d < d')%Z → (d' ≤ 100)%Z → ¬ (d = 30 ∧ d' = 31)%Z →
   equity_of_days (Some d) < equity_of_days (Some d'))
  ∧ ((d ≤ d')%Z → ¬ (d = 30 ∧ d' = 31)%Z →
     equity_of_days (Some d) <= equity_of_days (Some d'))
  ∧ ((d ≤ 0)%Z → equity_of_days (Some d) = 0)
  ∧ ((100 ≤ d)%Z → equity_of_days (Some d) = 15).
Proof.
  split; [|split; [|split]].
  - intros [Hd Hdd] Hd' Hpair. unfold equity_of_days.
    assert (Hcase : (d' ≤ 30 ∨ 31 ≤ d ∨ d ≤ 29 ∨ 32 ≤ d')%Z) by lia.
    destruct (Z.leb_spec d 0), (Z.leb_spec d 7), (Z.leb_spec d 30),
             (Z.leb_spec d' 0), (Z.leb_spec d' 7), (Z.leb_spec d' 30);
      try lia;
      destruct Hcase as [Hc|[Hc|[Hc|Hc]]]; try lia;
      clear Hpair; Z_to_R; unfold Rmin; repeat destruct Rle_dec; lra.
  - intros Hdd _. unfold equity_of_days.
    destruct (Z.leb_spec d 0), (Z.leb_spec d 7), (Z.leb_spec d 30),
             (Z.leb_spec d' 0), (Z.leb_spec d' 7), (Z.leb_spec d' 30);
      try lia; Z_to_R; unfold Rmin; repeat destruct Rle_dec; lra.
  - intros Hd. unfold equity_of_days.
    destruct (Z.leb_spec d 0); [lra|lia].
  - intros Hd. unfold equity_of_days.
    destruct (Z.leb_spec d 0); [lia|]. destruct (Z.leb_spec d 7); [lia|].
    destruct (Z.leb_spec d 30); [lia|].
    Z_to_R. unfold Rmin; destruct Rle_dec; lra.
Qed.

Lemma equity_monotone_witness :
  equity_of_days (Some 29%Z) < equity_of_days (Some 31%Z)
  ∧ equity_of_days (Some 30%Z) < equity_of_days (Some 32%Z)
  ∧ equity_of_days (Some 99%Z) <= equity_of_days (Some 400%Z)
  ∧ equity_of_days (Some (-2)%Z) = 0
  ∧ equity_of_days (Some 120%Z) = 15.
Proof.
  destruct (equity_monotone 29 31) as (H1 & _).
  destruct (equity_monotone 30 32) as (H2 & _).
  destruct (equity_monotone 99 400) as (_ & H3 & _).
  destruct (equity_monotone (-2) 0) as (_ & _ & H4 & _).
  destruct (equity_monotone 120 0) as (_ & _ & _ & H5).
  split; [apply H1; lia|]. split; [apply H2; lia|].
  split; [apply H3; lia|]. split; [apply H4; lia|apply H5; lia].
Defined.

(** X6: the combination of [calculate_profitability_score] never decreases
    when one of its three components increases, the other two fixed and not
    negative. *)
Theorem combine_scores_monotone (ef ef' u u' e e' : R) :
  0 <= ef → 0 <= u →
  ef <= ef' → u <= u' → e <= e' →
  combine_scores ef u e <= combine_scores ef' u e
  ∧ combine_scores ef u e <= combine_scores ef u' e
  ∧ combine_scores ef u e <= combine_scores ef u e'.
Proof.
  intros Hf Hu Hff Huu Hee. unfold combine_scores.
  assert (ef / 10.0 * 100 * (1.0 + u / 10.0 * 0.5)
          <= ef' / 10.0 * 100 * (1.0 + u / 10.0 * 0.5)) by nra.
  assert (ef / 10.0 * 100 * (1.0 + u / 10.0 * 0.5)
          <= ef / 10.0 * 100 * (1.0 + u' / 10.0 * 0.5)) by nra.
  repeat split; unfold Rmin; repeat destruct Rle_dec; lra.
Qed.

Lemma combine_scores_monotone_witness :
  combine_scores 3.5 8 4.1 <= combine_scores 6.2 8 4.1
  ∧ combine_scores 3.5 8 4.1 <= combine_scores 3.5 9 4.1
  ∧ combine_scores 3.5 8 4.1 <= combine_scores 3.5 8 8.
Proof. apply (combine_scores_monotone 3.5 6.2 8 9 4.1 8); lra. Defined.

End ScoreOrder.

(** ** The current week *)

Lemma last_week_bounds (ok : Z → bool) (n : nat) :
  (1 ≤ last_week ok n ≤ Z.max 1 (Z.of_nat n))%Z.
Proof.
  induction n as [|k IH]; [simpl; lia|].
  cbn [last_week]. destruct (ok (Z.of_nat (S k))); lia.
Qed.

Lemma last_week_mono (ok1 ok2 : Z → bool) (n : nat) :
  (∀ i, ok1 i = true → ok2 i = true) →
  (last_week ok1 n ≤ last_week ok2 n)%Z.
Proof.
  intros Hok. induction n as [|k IH]; [done|].
  cbn [last_week].
  destruct (ok1 (Z.of_nat (S k))) eqn:H1.
  - by rewrite (Hok _ H1).
  - destruct (ok2 (Z.of_nat (S k))); [|done].
    pose proof (last_week_bounds ok1 k). lia.
Qed.

(** X7: the current week of a box is at least 1, never later than the
    catalog-wide current week, and neither exceeds the number of week
    columns (or 1 when there is none). *)
Theorem current_week_order (s : Optimizer) (id : Z) :
  (1 ≤ get_current_week_for_box s id
   ≤ get_current_week s
   ≤ Z.max 1 (Z.of_nat (length (week_columns s))))%Z.
Proof.
  pose proof (last_week_bounds
                (λ i, has_column s (week_col i)
                      && existsb (λ r, bool_decide
                                         (is_Some (observation r (week_col i))))
                                 (df s))
                (length (week_columns s))) as Hg.
  fold (get_current_week s) in Hg.
  unfold get_current_week_for_box.
  destruct (box_rows s id) as [|row rest] eqn:Hrows; [lia|].
  split; [apply last_week_bounds|]. split; [|lia].
  unfold get_current_week. apply last_week_mono. intros i Hi.
  apply andb_true_iff in Hi as [Hc Ho]. apply andb_true_iff. split; [done|].
  apply existsb_exists. exists row. split; [|done].
  apply list_elem_of_In.
  assert (Hin : row ∈ box_rows s id) by (rewrite Hrows; apply list_elem_of_here).
  unfold box_rows in Hin. by apply list_elem_of_filter in Hin as [_ ?].
Qed.

(** ** The constructor and [load_state] *)

Lemma foldl_insert_key_lookup {B : Type} (g : Z → B) (rows : list BoxRow) :
  ∀ (c : gmap Z B) (id : Z),
    foldl (λ c r, <[n_boite r := g (n_boite r)]> c) c rows !! id
    = if decide (id ∈ map n_boite rows) then Some (g id) else c !! id.
Proof.
  induction rows as [|r rows IH]; intros c id.
  - rewrite decide_False; [done|]. apply not_elem_of_nil.
  - cbn [foldl map]. rewrite IH.
    destruct (decide (id ∈ map n_boite rows)) as [Hin|Hnin].
    + rewrite decide_True; [done|]. by apply list_elem_of_further.
    + destruct (decide (id = n_boite r)) as [->|Hne].
      * rewrite lookup_insert_eq, decide_True; [done|].
        apply list_elem_of_here.
      * rewrite lookup_insert_ne by done.
        rewrite decide_False; [done|]. by apply not_elem_of_cons.
Qed.

Lemma prewarm_cache_lookup (s0 : Optimizer) (cw : Z) (rows : list BoxRow)
    (id : Z) :
  foldl (λ c r, <[n_boite r := never_visited_bundle s0 (n_boite r) cw]> c)
        (∅ : gmap Z Bundle) rows !! id
  = if decide (id ∈ map n_boite rows)
    then Some (never_visited_bundle s0 id cw) else None.
Proof.
  rewrite (foldl_insert_key_lookup (λ i, never_visited_bundle s0 i cw)).
  by rewrite lookup_empty.
Qed.

(** X8: the constructor raises [ValueError] when the table has no week
    column; otherwise it returns an optimizer over the given rows with an
    empty ledger and a valid cache that holds a bundle for exactly the ids
    of the catalog, and every profitability read on that optimizer equals
    the computation from the catalog and the ledger. *)
Theorem constructor_result (tz : TzInfo) (columns : list string)
    (rows : list BoxRow) (clk : Clock) :
  (columns = [] → __init__ tz columns rows clk = Raise ValueError)
  ∧ (columns ≠ [] →
     ∃ s, __init__ tz columns rows clk = Ok s
          ∧ df s = rows ∧ week_columns s = columns
          ∧ last_visit s = ∅ ∧ visit_history s = ∅
          ∧ _cache_valid s = true
          ∧ (∀ id, is_Some (_score_cache s !! id) ↔ in_catalog s id = true)
          ∧ ∀ id clk', calculate_profitability_score s clk' id
                       = compute_profitability s clk' id).
Proof.
  split; [by intros ->|]. intros Hc.
  eexists. split; [by apply init_ok|].
  cbn [df week_columns last_visit visit_history _cache_valid _score_cache
       set_cache empty_optimizer].
  do 5 (split; [done|]). split.
  - intros id. rewrite prewarm_cache_lookup. unfold in_catalog.
    cbn [df set_cache empty_optimizer].
    rewrite bool_decide_eq_true.
    case_decide; [split; eauto|]. split; [by intros [? ?]|done].
  - intros id clk'. unfold calculate_profitability_score.
    cbn [_cache_valid _score_cache set_cache].
    rewrite prewarm_cache_lookup.
    case_decide; [|done].
    unfold compute_profitability, calculate_urgency_score,
      calculate_equity_score, calculate_days_since_last_visit.
    cbn [last_visit set_cache empty_optimizer].
    by rewrite lookup_empty.
Qed.

Lemma constructor_result_witness :
  ∃ s, __init__ zurich ex_columns ex_rows (ex_clock 0) = Ok s
       ∧ _cache_valid s = true
       ∧ ∀ id clk', calculate_profitability_score s clk' id
                    = compute_profitability s clk' id.
Proof.
  destruct (constructor_result zurich ex_columns ex_rows (ex_clock 0))
    as [_ H].
  destruct H as (s & H1 & _ & _ & _ & _ & H2 & _ & H3); [done|].
  by exists s.
Defined.

Lemma load_state_frame (s : Optimizer) (filename : string)
    (fs : gmap string StateFile) :
  df (load_state s filename fs) = df s
  ∧ week_columns (load_state s filename fs) = week_columns s
  ∧ _score_cache (load_state s filename fs) = _score_cache s
  ∧ _cache_valid (load_state s filename fs) = _cache_valid s
  ∧ timezone (load_state s filename fs) = timezone s.
Proof.
  unfold load_state. destruct (fs !! filename) as [f|]; [|done].
  destruct (load_last_visit _ _ _) as [lv [|]]; [|done].
  by destruct (load_visit_history _ _).
Qed.

(** X9: [load_state] never touches the cache.  On the optimizer that
    [init_optimizer] builds (constructor, then [load_state]), the
    profitability read of every catalog box is the never-visited score of
    the pre-warm pass, whatever last visit the file brought into the
    ledger. *)
Theorem init_then_load_serves_prewarm (tz : TzInfo) (columns : list string)
    (rows : list BoxRow) (clk clk' : Clock) (fs : gmap string StateFile)
    (s : Optimizer) (id : Z) :
  init_optimizer tz columns rows clk fs = Ok s →
  in_catalog s id = true →
  calculate_profitability_score s clk' id
  = Ok (combine_scores (calculate_expected_fill s id)
                       (urgency_of_days s id None) (equity_of_days None)).
Proof.
  unfold init_optimizer. intros Hinit Hcat.
  destruct columns as [|c0 cs]; [done|].
  rewrite init_ok in Hinit by done. simpl in Hinit. injection Hinit as <-.
  set (s0 := set_cache _ _ true) in *.
  destruct (load_state_frame s0 state_filename fs)
    as (Hdf & Hw & Hcache & Hvalid & _).
  assert (Hcat0 : in_catalog s0 id = true).
  { unfold in_catalog in *. by rewrite <- Hdf. }
  unfold calculate_profitability_score. rewrite Hvalid, Hcache.
  subst s0. cbn [_cache_valid _score_cache set_cache].
  rewrite prewarm_cache_lookup.
  unfold in_catalog in Hcat0. cbn [df set_cache empty_optimizer] in Hcat0.
  apply bool_decide_eq_true in Hcat0.
  case_decide; [|done]. cbn [profitability_score never_visited_bundle].
  f_equal.
  unfold calculate_expected_fill, calculate_fill_score,
    get_current_week_for_box, urgency_of_days, recent_scores, has_column,
    box_rows.
  by rewrite Hdf, Hw.
Qed.

Lemma init_then_load_serves_prewarm_witness :
  ∃ s, init_optimizer zurich ex_columns ex_rows (ex_clock 10)
         {[state_filename := ex_bad_file]} = Ok s
       ∧ last_visit s !! 1%Z
         = Some (Some (fromisoformat (isoformat ex_visit_time)))
       ∧ calculate_profitability_score s (ex_clock 10) 1
         = Ok (combine_scores (calculate_expected_fill s 1)
                              (urgency_of_days s 1 None)
                              (equity_of_days None)).
Proof.
  eexists. split; [|split].
  - unfold init_optimizer. rewrite ex_init. reflexivity.
  - reflexivity.
  - eapply (init_then_load_serves_prewarm zurich ex_columns ex_rows
              (ex_clock 10) (ex_clock 10)
              {[state_filename := ex_bad_file]}).
    + unfold init_optimizer. rewrite ex_init. reflexivity.
    + reflexivity.
Defined.

Lemma load_last_visit_complete (tz : TzInfo)
    (items : list (string * iso_text)) :
  Forall (λ kv, is_Some (py_int kv.1)) items →
  ∀ acc, ∃ m,
    load_last_visit tz items acc = (m, true)
    ∧ ∀ i, is_Some (m !! i)
           ↔ is_Some (acc !! i)
             ∨ ∃ kv, kv ∈ items ∧ py_int kv.1 = Some i.
Proof.
  induction 1 as [|[k v] items [j Hj] _ IH]; intros acc.
  - exists acc. split; [done|]. intros i. split; [eauto|].
    intros [?|(kv & Hkv & _)]; [done|]. by apply elem_of_nil in Hkv.
  - simpl in Hj. cbn [load_last_visit]. rewrite Hj.
    destruct (IH (<[j := Some
                    (match tzinfo (fromisoformat v) with
                     | Some _ => fromisoformat v
                     | None => replace_tzinfo (fromisoformat v) tz
                     end)]> acc)) as (m & Hm & Hdom).
    exists m. split; [exact Hm|]. intros i. rewrite Hdom.
    rewrite lookup_insert_is_Some. split.
    + intros [[->|[_ ?]]|(kv & Hkv & Hi)].
      * right. exists (k, v). split; [apply list_elem_of_here|done].
      * by left.
      * right. exists kv. split; [by apply list_elem_of_further|done].
    + intros [?|(kv & Hkv & Hi)].
      * destruct (decide (j = i)); [left; by left|left; right; done].
      * apply elem_of_cons in Hkv as [->|Hkv].
        -- simpl in Hi. left. left. congruence.
        -- right. eauto.
Qed.

Lemma load_visit_history_bad_key (items : list (string * list VisitRecord)) :
  Exists (λ kv, py_int kv.1 = None) items →
  ∀ acc, load_visit_history items acc = None.
Proof.
  induction items as [|[k v] items IH]; intros Hex acc.
  - by apply Exists_nil in Hex.
  - cbn [load_visit_history]. destruct (py_int k) as [j|] eqn:Hk; [|done].
    apply Exists_cons in Hex as [Hex|Hex]; [simpl in Hex; congruence|].
    by apply IH.
Qed.

(** A key that begins with a letter is not integer text. *)
Lemma py_int_letter (k : string) :
  starts_with_letter k = true → py_int k = None.
Proof.
  destruct k as [|a k]; [done|]. unfold py_int, NilZero.int_of_string.
  destruct a as [[] [] [] [] [] [] [] []]; try discriminate; intros _;
    cbn [NilZero.uint_of_string NilEmpty.uint_of_string];
    destruct (NilEmpty.uint_of_string k); reflexivity.
Qed.

(** X10: [load_state] is not all-or-nothing.  When every key of the
    [last_visit] object of the file is a decimal integer (an optional
    minus sign and digits) and some key of its [visit_history] object
    begins with a letter, the old last-visit map is replaced by the one of
    the file (its keys are exactly the parsed keys) while the old visit
    histories stay in place. *)
Theorem load_state_partial (s : Optimizer) (filename : string)
    (fs : gmap string StateFile) (file : StateFile) :
  fs !! filename = Some file →
  Forall (λ kv, is_Some (py_int kv.1)) (f_last_visit file) →
  Exists (λ kv, starts_with_letter kv.1 = true) (f_visit_history file) →
  visit_history (load_state s filename fs) = visit_history s
  ∧ ∀ i, is_Some (last_visit (load_state s filename fs) !! i)
         ↔ ∃ kv, kv ∈ f_last_visit file ∧ py_int kv.1 = Some i.
Proof.
  intros Hf Hlv Hvh. unfold load_state. rewrite Hf.
  destruct (load_last_visit_complete (timezone s) _ Hlv ∅)
    as (m & -> & Hdom).
  assert (Hbad : Exists (λ kv, py_int kv.1 = None) (f_visit_history file)).
  { eapply Exists_impl; [exact Hvh|].
    intros kv Hkv. by apply py_int_letter. }
  rewrite (load_visit_history_bad_key _ Hbad). simpl.
  split; [done|]. intros i. rewrite Hdom, lookup_empty.
  split; [intros [[? ?]|?]; done|eauto].
Qed.

Lemma load_state_partial_witness :
  visit_history
    (load_state ex_ledger state_filename {[state_filename := ex_bad_file]})
  = visit_history ex_ledger
  ∧ ¬ is_Some
        (last_visit
           (load_state ex_ledger state_filename
              {[state_filename := ex_bad_file]}) !! 2%Z).
Proof.
  destruct (load_state_partial ex_ledger state_filename
              {[state_filename := ex_bad_file]} ex_bad_file) as [H1 H2].
  - apply lookup_singleton_eq.
  - repeat constructor. simpl. rewrite py_int_py_str. eauto.
  - apply Exists_cons_hd. reflexivity.
  - split; [exact H1|]. rewrite H2. intros (kv & Hkv & Hi).
    apply list_elem_of_singleton in Hkv as ->. simpl in Hi.
    rewrite py_int_py_str in Hi. done.
Defined.

(** ** Mutations: failure, frame and composition *)

(** X11: a request that the method refuses leaves the optimizer as it
    was.  [add_box] returns [False] and changes nothing when one of the six
    required keys is missing or when the id is already in the catalog;
    [remove_box] and [update_box] return [False] and change nothing when
    the id is not in the catalog; [remove_box] returns [True] for every id
    of the catalog. *)
Theorem mutation_failure_is_noop (s : Optimizer) (id : Z) (bd : BoxData)
    (bu : BoxUpdate) :
  (data_n_boite bd = None ∨ data_adresse bd = None
   ∨ data_commune bd = None ∨ data_cp bd = None
   ∨ data_conteneur bd = None ∨ data_volume_moyen bd = None →
   add_box s bd = (false, s))
  ∧ (data_n_boite bd = Some id → in_catalog s id = true →
     add_box s bd = (false, s))
  ∧ (in_catalog s id = false →
     remove_box s id = (false, s) ∧ update_box s id bu = (false, s))
  ∧ (in_catalog s id = true → (remove_box s id).1 = true).
Proof.
  split; [|split; [|split]].
  - unfold add_box.
    intros [->|[->|[->|[->|[->| ->]]]]];
      by destruct (data_n_boite bd), (data_adresse bd), (data_commune bd),
           (data_cp bd), (data_conteneur bd), (data_volume_moyen bd).
  - unfold add_box. intros -> ->.
    by destruct (data_adresse bd), (data_commune bd), (data_cp bd),
         (data_conteneur bd), (data_volume_moyen bd).
  - unfold remove_box, update_box. by intros ->.
  - unfold remove_box. by intros ->.
Qed.

Lemma mutation_failure_is_noop_witness :
  add_box ex_visited
    {| data_n_boite := Some 7%Z; data_adresse := None;
       data_commune := Some "Rolle"; data_cp := Some "1180";
       data_conteneur := Some "Textile";
       data_volume_moyen := Some 4.0%R |}
  = (false, ex_visited)
  ∧ add_box ex_visited
      {| data_n_boite := Some 1%Z; data_adresse := Some "Grand-Rue 12";
         data_commune := Some "Rolle"; data_cp := Some "1180";
         data_conteneur := Some "Textile";
         data_volume_moyen := Some 4.0%R |}
    = (false, ex_visited)
  ∧ remove_box ex_visited 99 = (false, ex_visited)
  ∧ update_box ex_visited 99 ex_box_update = (false, ex_visited)
  ∧ (remove_box ex_visited 1).1 = true.
Proof.
  split; [|split; [|split; [|split]]].
  - refine (proj1 (mutation_failure_is_noop ex_visited 0 _ ex_box_update) _).
    right. left. reflexivity.
  - destruct (mutation_failure_is_noop ex_visited 1
                {| data_n_boite := Some 1%Z;
                   data_adresse := Some "Grand-Rue 12";
                   data_commune := Some "Rolle"; data_cp := Some "1180";
                   data_conteneur := Some "Textile";
                   data_volume_moyen := Some 4.0%R |} ex_box_update)
      as (_ & H & _).
    apply H; reflexivity.
  - destruct (mutation_failure_is_noop ex_visited 99 ex_box_data
                ex_box_update) as (_ & _ & H & _).
    apply H. reflexivity.
  - destruct (mutation_failure_is_noop ex_visited 99 ex_box_data
                ex_box_update) as (_ & _ & H & _).
    apply H. reflexivity.
  - destruct (mutation_failure_is_noop ex_visited 1 ex_box_data
                ex_box_update) as (_ & _ & _ & H).
    apply H. reflexivity.
Defined.

Lemma add_box_state (s : Optimizer) (bd : BoxData) (id : Z)
    (a c p k : string) (v : R) :
  data_n_boite bd = Some id → data_adresse bd = Some a →
  data_commune bd = Some c → data_cp bd = Some p →
  data_conteneur bd = Some k → data_volume_moyen bd = Some v →
  in_catalog s id = false →
  add_box s bd
  = (true,
     {| df := df s ++ [{| n_boite := id; adresse := a; commune := c;
                          cp := p; conteneur := k; volume_moyen := Some v;
                          semaines := ∅ |}];
        week_columns := week_columns s;
        last_visit := match last_visit s !! id with
                      | None => <[id := None]> (last_visit s)
                      | Some _ => last_visit s
                      end;
        visit_history := match visit_history s !! id with
                         | None => <[id := []]> (visit_history s)
                         | Some _ => visit_history s
                         end;
        _score_cache := ∅; _cache_valid := false;
        timezone := timezone s |}).
Proof.
  intros Hid Ha Hc Hp Hk Hv Hcat.
  unfold add_box. rewrite Hid, Ha, Hc, Hp, Hk, Hv, Hcat. simpl.
  destruct (last_visit s !! id); simpl;
    destruct (visit_history s !! id); reflexivity.
Qed.

Lemma add_box_success_fields (s s' : Optimizer) (bd : BoxData) :
  add_box s bd = (true, s') →
  ∃ id a c p k v,
    data_n_boite bd = Some id ∧ data_adresse bd = Some a
    ∧ data_commune bd = Some c ∧ data_cp bd = Some p
    ∧ data_conteneur bd = Some k ∧ data_volume_moyen bd = Some v
    ∧ in_catalog s id = false.
Proof.
  unfold add_box.
  destruct (data_n_boite bd) as [id|]; [|done].
  destruct (data_adresse bd) as [a|]; [|done].
  destruct (data_commune bd) as [c|]; [|done].
  destruct (data_cp bd) as [p|]; [|done].
  destruct (data_conteneur bd) as [k|]; [|done].
  destruct (data_volume_moyen bd) as [v|]; [|done].
  destruct (in_catalog s id) eqn:Hcat; [done|].
  intros _. by exists id, a, c, p, k, v.
Qed.

Lemma not_in_catalog_filter (s : Optimizer) (id : Z) :
  in_catalog s id = false → filter (λ r, n_boite r ≠ id) (df s) = df s.
Proof.
  unfold in_catalog. intros H. apply bool_decide_eq_false in H.
  induction (df s) as [|r l IH]; [done|].
  rewrite filter_cons. rewrite decide_True.
  - f_equal. apply IH. intros Hin. apply H. simpl.
    by apply list_elem_of_further.
  - intros Heq. apply H. simpl. rewrite <- Heq. apply list_elem_of_here.
Qed.

Lemma box_rows_app_other (l : list BoxRow) (r : BoxRow) (j : Z) :
  n_boite r ≠ j →
  filter (λ r, n_boite r = j) (l ++ [r]) = filter (λ r, n_boite r = j) l.
Proof.
  intros Hne. rewrite filter_app, filter_cons, decide_False by done.
  rewrite filter_nil. apply app_nil_r.
Qed.

Lemma box_rows_remove_other (l : list BoxRow) (id j : Z) :
  j ≠ id →
  filter (λ r, n_boite r = j) (filter (λ r, n_boite r ≠ id) l)
  = filter (λ r, n_boite r = j) l.
Proof.
  intros Hne. induction l as [|r l IH]; [done|].
  rewrite (filter_cons (λ r, n_boite r ≠ id)). case_decide as Hr.
  - rewrite !filter_cons. case_decide; [by rewrite IH|done].
  - rewrite IH, filter_cons, decide_False; [done|].
    congruence.
Qed.

Lemma box_rows_update (l : list BoxRow) (id j : Z) (bu : BoxUpdate) :
  filter (λ r, n_boite r = j) (map (update_row id bu) l)
  = map (update_row id bu) (filter (λ r, n_boite r = j) l).
Proof.
  assert (Hid : ∀ r, n_boite (update_row id bu r) = n_boite r).
  { intros r. unfold update_row. by case_decide. }
  induction l as [|r l IH]; [done|].
  cbn [map]. rewrite !filter_cons, Hid.
  case_decide; [|done]. cbn [map]. by rewrite IH.
Qed.

Lemma update_row_other (id : Z) (bu : BoxUpdate) (l : list BoxRow) :
  Forall (λ r, n_boite r ≠ id) l → map (update_row id bu) l = l.
Proof.
  induction 1 as [|r l Hr _ IH]; [done|].
  cbn [map]. rewrite IH. f_equal. unfold update_row. by rewrite decide_False.
Qed.

(** The scores of a box read only its own rows, the week columns, its own
    ledger value and the timezone. *)
Lemma scores_frame (s s' : Optimizer) (j : Z) :
  box_rows s' j = box_rows s j →
  week_columns s' = week_columns s →
  last_visit s' !! j = last_visit s !! j →
  timezone s' = timezone s →
  (∀ w, calculate_fill_score s' j w = calculate_fill_score s j w)
  ∧ calculate_expected_fill s' j = calculate_expected_fill s j
  ∧ ∀ clk, calculate_days_since_last_visit s' clk j
           = calculate_days_since_last_visit s clk j
           ∧ compute_profitability s' clk j = compute_profitability s clk j.
Proof.
  intros Hr Hw Hl Ht.
  assert (Hfill : ∀ w, calculate_fill_score s' j w
                       = calculate_fill_score s j w).
  { intros w. unfold calculate_fill_score, get_current_week_for_box,
      recent_scores, has_column. by rewrite Hr, Hw. }
  assert (Hexp : calculate_expected_fill s' j = calculate_expected_fill s j).
  { unfold calculate_expected_fill. by rewrite Hfill, Hr. }
  split; [exact Hfill|]. split; [exact Hexp|]. intros clk.
  assert (Hdays : calculate_days_since_last_visit s' clk j
                  = calculate_days_since_last_visit s clk j).
  { unfold calculate_days_since_last_visit. by rewrite Hl, Ht. }
  split; [exact Hdays|].
  unfold compute_profitability, calculate_urgency_score,
    calculate_equity_score, urgency_of_days.
  by rewrite Hexp, Hdays, Hr.
Qed.

(** X12: a mutation aimed at one box leaves the computed scores of every
    other box as they were: after [mark_visit], [add_box], [remove_box] or
    [update_box] on [id], the expected fill, the days since the last visit
    and the computed profitability of a box [j ≠ id] are unchanged. *)
Theorem other_boxes_unaffected (s s' : Optimizer) (id j : Z) (clk : Clock) :
  j ≠ id →
  (∃ clk0 level, mark_visit s clk0 id level = Ok s')
  ∨ (∃ bd, data_n_boite bd = Some id ∧ add_box s bd = (true, s'))
  ∨ remove_box s id = (true, s')
  ∨ (∃ bu, update_box s id bu = (true, s')) →
  calculate_expected_fill s' j = calculate_expected_fill s j
  ∧ calculate_days_since_last_visit s' clk j
    = calculate_days_since_last_visit s clk j
  ∧ compute_profitability s' clk j = compute_profitability s clk j.
Proof.
  intros Hne Hop.
  cut (box_rows s' j = box_rows s j ∧ week_columns s' = week_columns s
       ∧ last_visit s' !! j = last_visit s !! j ∧ timezone s' = timezone s).
  { intros (Hr & Hw & Hl & Ht).
    destruct (scores_frame s s' j Hr Hw Hl Ht) as (_ & He & Hc).
    split; [exact He|]. apply Hc. }
  destruct Hop as [(clk0 & level & Hm)|[(bd & Hid & Ha)|[Hrm|(bu & Hu)]]].
  - destruct (mark_visit_ok s clk0 id level) as [b Hb].
    rewrite Hb in Hm. injection Hm as <-.
    repeat split. cbn [last_visit set_cache set_visit_history set_last_visit].
    by rewrite lookup_insert_ne.
  - destruct (add_box_success_fields s s' bd Ha)
      as (i & a & c & p & k & v & Hi & Hfa & Hfc & Hfp & Hfk & Hfv & Hcat).
    assert (i = id) as -> by congruence.
    rewrite (add_box_state s bd id a c p k v) in Ha by done.
    injection Ha as <-. unfold box_rows.
    cbn [df week_columns last_visit timezone].
    split; [by apply box_rows_app_other|]. split; [done|]. split; [|done].
    destruct (last_visit s !! id); [done|]. by rewrite lookup_insert_ne.
  - destruct (remove_box_success_inv s s' id Hrm)
      as (_ & Hdf & Hlv & _ & _ & _).
    unfold remove_box in Hrm. destruct (in_catalog s id); [|done].
    injection Hrm as <-. unfold box_rows.
    cbn [df week_columns last_visit timezone set_cache set_visit_history
         set_last_visit set_df].
    split; [by apply box_rows_remove_other|]. split; [done|]. split; [|done].
    by rewrite lookup_delete_ne.
  - unfold update_box in Hu. destruct (in_catalog s id); [|done].
    injection Hu as <-. unfold box_rows.
    cbn [df week_columns last_visit timezone set_cache invalidate_cache
         set_df].
    split; [|done].
    rewrite box_rows_update. apply update_row_other.
    apply Forall_forall. intros r Hr.
    apply list_elem_of_filter in Hr as [-> _]. done.
Qed.

Lemma other_boxes_unaffected_witness :
  compute_profitability (remove_box ex_visited 2).2 (ex_clock 10) 1
  = compute_profitability ex_visited (ex_clock 10) 1.
Proof.
  apply (other_boxes_unaffected ex_visited (remove_box ex_visited 2).2 2 1
           (ex_clock 10)); [done|].
  right. right. left. reflexivity.
Defined.

Section MutationEffects.
Local Open Scope R_scope.

(** X13: [mark_visit] returns for every box id; it leaves the catalog as
    it is, appends exactly one record to the history of the box, and from
    then on the days since the last visit of the box are counted from the
    clock reading of the visit: they are 0 at that reading, where the
    equity score is 0.0 and the urgency score 1.0. *)
Theorem mark_visit_effects (s : Optimizer) (clk clk' : Clock) (id : Z)
    (level : option R) :
  ∃ s', mark_visit s clk id level = Ok s'
        ∧ df s' = df s
        ∧ visit_history s' !! id
          = Some (default [] (visit_history s !! id)
                  ++ [visit_record_of s clk id level])
        ∧ calculate_days_since_last_visit s' clk' id
          = Ok (Some (timedelta_days (clk_wall_us clk') (clk_utcoffset clk')
                                     (clk_wall_us clk) (clk_utcoffset clk)))
        ∧ calculate_days_since_last_visit s' clk id = Ok (Some 0%Z)
        ∧ calculate_equity_score s' clk id = Ok 0.0
        ∧ calculate_urgency_score s' clk id = Ok 1.
Proof.
  destruct (mark_visit_ok s clk id level) as [b ->].
  eexists. split; [reflexivity|].
  set (s' := set_cache _ _ _).
  assert (Hlv : last_visit s' !! id = Some (Some (datetime_now clk))).
  { subst s'. simpl. apply lookup_insert_eq. }
  pose proof (days_since_just_visited s' clk id Hlv) as Hd.
  split; [done|]. split; [subst s'; simpl; apply lookup_insert_eq|].
  split; [|split; [exact Hd|split]].
  - unfold calculate_days_since_last_visit. by rewrite Hlv.
  - by rewrite (equity_of_days_eq _ _ _ _ Hd).
  - rewrite (urgency_of_days_eq _ _ _ _ Hd). f_equal.
    by apply urgency_within_one_day.
Qed.

(** X14: a successful [add_box] appends one row with the given fields and
    no observation; the new box has fill score 0, its expected fill is
    [min(0.0 * 0.7 + volume_moyen * 0.3, 10.0)], and the history the ledger
    held for that id, if any, is kept. *)
Theorem add_box_adds_row (s : Optimizer) (bd : BoxData) (id : Z)
    (a c p k : string) (v : R) :
  data_n_boite bd = Some id → data_adresse bd = Some a →
  data_commune bd = Some c → data_cp bd = Some p →
  data_conteneur bd = Some k → data_volume_moyen bd = Some v →
  in_catalog s id = false →
  ∃ s', add_box s bd = (true, s')
        ∧ df s' = df s ++ [{| n_boite := id; adresse := a; commune := c;
                              cp := p; conteneur := k;
                              volume_moyen := Some v; semaines := ∅ |}]
        ∧ length (df s') = S (length (df s))
        ∧ week_columns s' = week_columns s
        ∧ (∀ w, calculate_fill_score s' id w = 0.0)
        ∧ calculate_expected_fill s' id = Rmin (0.0 * 0.7 + v * 0.3) 10.0
        ∧ visit_history s' !! id = Some (default [] (visit_history s !! id)).
Proof.
  intros Hid Ha Hc Hp Hk Hv Hcat.
  rewrite (add_box_state s bd id a c p k v) by done.
  eexists. split; [reflexivity|].
  set (row := {| n_boite := id; semaines := ∅ |}).
  set (s' := {| df := df s ++ [row] |}).
  assert (Hrows : box_rows s' id = [row]).
  { unfold box_rows. subst s'. cbn [df].
    rewrite filter_app. fold (box_rows s id).
    rewrite (box_rows_absent s id Hcat).
    by rewrite filter_cons, decide_True. }
  assert (Hfill : ∀ w, calculate_fill_score s' id w = 0.0).
  { intros w. unfold calculate_fill_score. rewrite Hrows.
    assert (Hsc : ∀ cw, recent_scores s' row cw = []).
    { intros cw. unfold recent_scores.
      induction (seqZ 0 (4 `min` cw)) as [|i l IH]; [done|].
      cbn [omap list_omap]. unfold observation at 1. subst row. cbn [semaines].
      rewrite lookup_empty. destruct (has_column s' _); exact IH. }
    by rewrite Hsc. }
  split; [done|]. split; [subst s'; cbn [df]; rewrite length_app; simpl; lia|].
  split; [done|]. split; [exact Hfill|]. split.
  - unfold calculate_expected_fill. rewrite Hfill, Hrows. reflexivity.
  - subst s'. cbn [visit_history].
    destruct (visit_history s !! id) as [h|] eqn:Hh; [done|].
    apply lookup_insert_eq.
Qed.

Lemma add_box_adds_row_witness :
  ∃ s', add_box ex_visited ex_box_data = (true, s')
        ∧ length (df s') = 3%nat
        ∧ calculate_expected_fill s' 7 = Rmin (0.0 * 0.7 + 4.0 * 0.3) 10.0.
Proof.
  destruct (add_box_adds_row ex_visited ex_box_data 7 "Grand-Rue 12" "Rolle"
              "1180" "Textile" 4.0) as (s' & H1 & _ & H2 & _ & _ & H3 & _);
    try reflexivity.
  by exists s'.
Defined.

(** X15: adding a box whose id is new to the catalog and to the ledger and
    then removing it gives back the catalog and the ledger of before; only
    the cache is left invalidated. *)
Theorem add_then_remove (s : Optimizer) (bd : BoxData) (id : Z) :
  data_n_boite bd = Some id →
  is_Some (data_adresse bd) → is_Some (data_commune bd) →
  is_Some (data_cp bd) → is_Some (data_conteneur bd) →
  is_Some (data_volume_moyen bd) →
  in_catalog s id = false →
  last_visit s !! id = None →
  visit_history s !! id = None →
  ∃ s', add_box s bd = (true, s')
        ∧ remove_box s' id = (true, invalidate_cache s).
Proof.
  intros Hid [a Ha] [c Hc] [p Hp] [k Hk] [v Hv] Hcat Hlv Hvh.
  rewrite (add_box_state s bd id a c p k v) by done.
  eexists. split; [reflexivity|]. rewrite Hlv, Hvh.
  unfold remove_box.
  assert (Hin : in_catalog {| df := df s ++ [{| n_boite := id; adresse := a;
                   commune := c; cp := p; conteneur := k;
                   volume_moyen := Some v; semaines := ∅ |}];
                 week_columns := week_columns s;
                 last_visit := <[id := None]> (last_visit s);
                 visit_history := <[id := []]> (visit_history s);
                 _score_cache := ∅; _cache_valid := false;
                 timezone := timezone s |} id = true).
  { unfold in_catalog. apply bool_decide_eq_true. cbn [df].
    rewrite map_app. apply elem_of_app. right. apply list_elem_of_here. }
  rewrite Hin. cbn [negb]. f_equal.
  unfold invalidate_cache, set_cache, set_visit_history, set_last_visit,
    set_df. cbn [df week_columns last_visit visit_history _score_cache
                 _cache_valid timezone].
  rewrite filter_app, (not_in_catalog_filter s id Hcat).
  rewrite filter_cons, decide_False by (cbn [n_boite]; tauto).
  rewrite filter_nil, app_nil_r.
  by rewrite !delete_insert_eq, !delete_id.
Qed.

Lemma add_then_remove_witness :
  ∃ s', add_box ex_fresh ex_box_data = (true, s')
        ∧ remove_box s' 7 = (true, invalidate_cache ex_fresh).
Proof.
  apply (add_then_remove ex_fresh ex_box_data 7);
    try reflexivity; simpl; eauto.
Defined.

(** X16: after a successful [remove_box] the id is out of the catalog and
    out of the ledger, a detail lookup for it returns [None], and a
    profitability read for it still returns a number: 16, the score of an
    unknown box (expected fill 0, urgency 3.0, equity 8.0). *)
Theorem remove_box_purges (s s' : Optimizer) (id : Z) (clk : Clock) :
  remove_box s id = (true, s') →
  in_catalog s' id = false
  ∧ last_visit s' !! id = None
  ∧ visit_history s' !! id = None
  ∧ get_box_details s' clk id = Ok None
  ∧ calculate_profitability_score s' clk id = Ok 16.
Proof.
  intros Hrm.
  destruct (remove_box_success_inv s s' id Hrm)
    as (_ & Hdf & Hlv & Hvh & _ & Hc).
  assert (Hcat : in_catalog s' id = false).
  { unfold in_catalog. apply bool_decide_eq_false. rewrite Hdf.
    intros Hin. apply list_elem_of_fmap in Hin as (r & -> & Hr).
    by apply list_elem_of_filter in Hr as [? _]. }
  assert (Hnone : last_visit s' !! id = None)
    by (rewrite Hlv; apply lookup_delete_eq).
  pose proof (box_rows_absent s' id Hcat) as Hrows.
  pose proof (days_since_never s' clk id Hnone) as Hd.
  split; [exact Hcat|]. split; [exact Hnone|].
  split; [rewrite Hvh; apply lookup_delete_eq|]. split.
  - unfold get_box_details. by rewrite Hrows.
  - rewrite profitability_uncached
      by (right; rewrite Hc; apply lookup_delete_eq).
    unfold compute_profitability.
    rewrite (urgency_of_days_eq _ _ _ _ Hd), (equity_of_days_eq _ _ _ _ Hd).
    simpl. f_equal.
    unfold calculate_expected_fill, calculate_fill_score, combine_scores.
    rewrite Hrows.
    replace (Rmin (0.0 * 0.7 + 0 * 0.3) 10.0) with 0
      by (unfold Rmin; destruct Rle_dec; lra).
    unfold Rmin; destruct Rle_dec; lra.
Qed.

Lemma remove_box_purges_witness :
  get_box_details (remove_box ex_visited 1).2 (ex_clock 3) 1 = Ok None
  ∧ calculate_profitability_score (remove_box ex_visited 1).2 (ex_clock 3) 1
    = Ok 16.
Proof.
  destruct (remove_box_purges ex_visited (remove_box ex_visited 1).2 1
              (ex_clock 3)) as (_ & _ & _ & H1 & H2); [reflexivity|].
  by split.
Defined.

End MutationEffects.

Section UpdateAndPoison.
Local Open Scope R_scope.

Lemma update_row_semaines (id : Z) (bu : BoxUpdate) (r : BoxRow) :
  semaines (update_row id bu r) = semaines r.
Proof. unfold update_row. by case_decide. Qed.

(** X17: a successful [update_box] keeps the ids of the catalog in their
    order, the ledger and every observation, so every fill score is
    unchanged; when the request gives a number for [volume_moyen], the
    expected fill of the box becomes
    [min(fill_score * 0.7 + volume_moyen * 0.3, 10.0)]. *)
Theorem update_box_effects (s s' : Optimizer) (id : Z) (bu : BoxUpdate) :
  update_box s id bu = (true, s') →
  map n_boite (df s') = map n_boite (df s)
  ∧ last_visit s' = last_visit s
  ∧ visit_history s' = visit_history s
  ∧ (∀ j w, calculate_fill_score s' j w = calculate_fill_score s j w)
  ∧ (∀ v, upd_volume_moyen bu = Some (Some v) →
          calculate_expected_fill s' id
          = Rmin (calculate_fill_score s id None * 0.7 + v * 0.3) 10.0).
Proof.
  intros Hu. pose proof Hu as Hu'.
  destruct (update_box_success_inv s s' id bu Hu) as (Hcat & Hdf & Hlv & _).
  unfold update_box in Hu'. rewrite Hcat in Hu'. injection Hu' as <-.
  assert (Hrows : ∀ j, box_rows (invalidate_cache
                          (set_df s (map (update_row id bu) (df s)))) j
                       = map (update_row id bu) (box_rows s j)).
  { intros j. unfold box_rows. cbn [df invalidate_cache set_cache set_df].
    apply box_rows_update. }
  assert (Hfill : ∀ j w,
            calculate_fill_score
              (invalidate_cache (set_df s (map (update_row id bu) (df s)))) j w
            = calculate_fill_score s j w).
  { intros j w.
    unfold calculate_fill_score, get_current_week_for_box, recent_scores,
      has_column.
    rewrite Hrows. cbn [week_columns invalidate_cache set_cache set_df].
    destruct (box_rows s j) as [|row rest]; [done|].
    cbn [map]. unfold observation. by rewrite update_row_semaines. }
  split.
  { cbn [df invalidate_cache set_cache set_df]. rewrite <- list_fmap_compose.
    apply list_fmap_ext. intros _ r _. simpl. unfold update_row.
    by case_decide. }
  split; [done|]. split; [done|]. split; [exact Hfill|].
  intros v Hv. unfold calculate_expected_fill. rewrite Hfill, Hrows.
  destruct (box_rows_present s id Hcat) as (row & rest & -> & Hid).
  cbn [map]. unfold update_row at 1. rewrite decide_True by done.
  cbn [volume_moyen]. by rewrite Hv.
Qed.

Lemma update_box_effects_witness :
  calculate_expected_fill (update_box ex_visited 1 ex_box_update).2 1
  = Rmin (calculate_fill_score ex_visited 1 None * 0.7 + 2.0 * 0.3) 10.0.
Proof.
  destruct (update_box_effects ex_visited
              (update_box ex_visited 1 ex_box_update).2 1 ex_box_update)
    as (_ & _ & _ & _ & H); [reflexivity|].
  by apply H.
Defined.

Lemma days_since_raise (s : Optimizer) (clk : Clock) (id : Z) :
  (∃ d, calculate_days_since_last_visit s clk id = Ok d)
  ∨ calculate_days_since_last_visit s clk id = Raise AttributeError.
Proof.
  unfold calculate_days_since_last_visit.
  destruct (last_visit s !! id) as [[lv|]|]; eauto.
  destruct (tzinfo lv); eauto.
Qed.

Lemma profitability_raise (s : Optimizer) (clk : Clock) (id : Z) :
  (∃ p, calculate_profitability_score s clk id = Ok p)
  ∨ calculate_profitability_score s clk id = Raise AttributeError.
Proof.
  unfold calculate_profitability_score.
  destruct (_cache_valid s), (_score_cache s !! id); eauto;
    unfold compute_profitability, calculate_urgency_score,
      calculate_equity_score;
    destruct (days_since_raise s clk id) as [[d ->]| ->]; eauto.
Qed.

Lemma profitability_none_value (s : Optimizer) (clk : Clock) (id : Z) :
  _cache_valid s = false →
  last_visit s !! id = Some None →
  calculate_profitability_score s clk id = Raise AttributeError.
Proof.
  intros Hv Hlv. rewrite profitability_uncached by (by left).
  unfold compute_profitability, calculate_urgency_score.
  by rewrite (days_since_none_value s clk id Hlv).
Qed.

Lemma recommend_loop_raises (s : Optimizer) (clk : Clock) (min_score : R)
    (rows : list BoxRow) :
  _cache_valid s = false →
  Exists (λ r, last_visit s !! n_boite r = Some None) rows →
  recommend_loop s clk min_score rows = Raise AttributeError.
Proof.
  intros Hv. induction rows as [|box rest IH]; intros Hex.
  - by apply Exists_nil in Hex.
  - cbn [recommend_loop].
    assert (Hb : last_visit s !! n_boite box = Some None
                 ∨ last_visit s !! n_boite box ≠ Some None).
    { destruct (last_visit s !! n_boite box) as [[lv|]|]; eauto. }
    destruct Hb as [Hb|Hb].
    { by rewrite (profitability_none_value s clk _ Hv Hb). }
    apply Exists_cons in Hex as [?|Hex]; [done|].
    destruct (profitability_raise s clk (n_boite box)) as [[p ->]| ->];
      [|done].
    destruct (days_since_raise s clk (n_boite box)) as [[d Hd]|Hd];
      rewrite Hd; [|done].
    simpl. destruct (Rge_dec p min_score); [|by apply IH].
    rewrite (equity_of_days_eq _ _ _ _ Hd). simpl. by rewrite (IH Hex).
Qed.

(** X18: after a successful [add_box] of an id that the ledger did not
    hold, every read that reaches the new box raises [AttributeError]:
    [calculate_profitability_score] and [get_box_details] for the box,
    [get_recommended_boxes] whatever its arguments, and [save_state]. *)
Theorem add_box_breaks_reads (s : Optimizer) (bd : BoxData) (id : Z)
    (clk : Clock) (max_boxes : Z) (min_score : R) (filename : string)
    (fs : gmap string StateFile) :
  data_n_boite bd = Some id →
  is_Some (data_adresse bd) → is_Some (data_commune bd) →
  is_Some (data_cp bd) → is_Some (data_conteneur bd) →
  is_Some (data_volume_moyen bd) →
  in_catalog s id = false →
  last_visit s !! id = None →
  ∃ s', add_box s bd = (true, s')
        ∧ calculate_profitability_score s' clk id = Raise AttributeError
        ∧ get_box_details s' clk id = Raise AttributeError
        ∧ get_recommended_boxes s' clk max_boxes min_score
          = Raise AttributeError
        ∧ save_state s' filename fs = Raise AttributeError.
Proof.
  intros Hid Ha Hc Hp Hk Hvol Hcat Hlv.
  destruct (add_box_ok s bd id Hid Ha Hc Hp Hk Hvol Hcat)
    as (s' & Hadd & Hin & Hlv' & Hvalid & _).
  assert (Hnone : last_visit s' !! id = Some None).
  { rewrite Hlv', Hlv. apply lookup_insert_eq. }
  pose proof (profitability_none_value s' clk id Hvalid Hnone) as Hp'.
  exists s'. split; [exact Hadd|]. split; [exact Hp'|]. split; [|split].
  - unfold get_box_details.
    destruct (box_rows_present s' id Hin) as (row & rest & -> & _).
    by rewrite Hp'.
  - unfold get_recommended_boxes.
    rewrite (recommend_loop_raises s' clk min_score (df s') Hvalid); [done|].
    unfold in_catalog in Hin. apply bool_decide_eq_true in Hin.
    apply list_elem_of_fmap in Hin as (r & -> & Hr).
    apply Exists_exists. eauto.
  - by apply (save_state_none_value_raises s' filename fs id).
Qed.

Lemma add_box_breaks_reads_witness :
  ∃ s', add_box ex_visited ex_box_data = (true, s')
        ∧ get_recommended_boxes s' (ex_clock 3) 20 30.0
          = Raise AttributeError
        ∧ save_state s' state_filename ∅ = Raise AttributeError.
Proof.
  destruct (add_box_breaks_reads ex_visited ex_box_data 7 (ex_clock 3) 20
              30.0 state_filename ∅) as (s' & H1 & _ & _ & H2 & H3).
  1, 7, 8: reflexivity.
  1-5: simpl; eauto.
  by exists s'.
Defined.

End UpdateAndPoison.

(** ** Recommendations *)

Section Recommendations.
Local Open Scope R_scope.

#[local] Instance R_eq_decision : EqDecision R := Req_dec_T.

Lemma insert_by_score_perm (x : Recommendation) (l : list Recommendation) :
  insert_by_score x l ≡ₚ x :: l.
Proof.
  induction l as [|y l IH]; [done|].
  cbn [insert_by_score]. destruct Rlt_dec; [|done].
  rewrite IH. apply Permutation_swap.
Qed.

Lemma sort_by_score_perm (l : list Recommendation) : sort_by_score l ≡ₚ l.
Proof.
  induction l as [|x l IH]; [done|].
  unfold sort_by_score in *. cbn [foldr].
  by rewrite insert_by_score_perm, IH.
Qed.

Lemma insert_by_score_sorted (x : Recommendation)
    (l : list Recommendation) :
  StronglySorted
    (λ a b, rec_profitability_score b <= rec_profitability_score a) l →
  StronglySorted
    (λ a b, rec_profitability_score b <= rec_profitability_score a)
    (insert_by_score x l).
Proof.
  induction 1 as [|y l Hs IH Hy]; cbn [insert_by_score].
  - repeat constructor.
  - destruct Rlt_dec as [Hlt|Hge].
    + constructor; [exact IH|].
      rewrite insert_by_score_perm. constructor; [lra|exact Hy].
    + apply Rnot_lt_le in Hge.
      constructor; [by constructor|].
      constructor; [exact Hge|].
      eapply Forall_impl; [exact Hy|]. simpl. intros z Hz. lra.
Qed.

Lemma sort_by_score_sorted (l : list Recommendation) :
  StronglySorted
    (λ a b, rec_profitability_score b <= rec_profitability_score a)
    (sort_by_score l).
Proof.
  induction l as [|x l IH]; [constructor|].
  unfold sort_by_score in *. cbn [foldr]. by apply insert_by_score_sorted.
Qed.



Lemma slice_to_take {A : Type} (l : list A) (n : Z) :
  ∃ k, slice_to l n = take k l ∧ ((0 ≤ n)%Z → k = Z.to_nat n).
Proof.
  unfold slice_to. destruct (Z.leb_spec 0 n); eexists; split; try done; lia.
Qed.

(** Every entry of the loop comes from a row of the catalog whose score
    passed the threshold, and every such row has an entry. *)
Lemma recommend_loop_entries (s : Optimizer) (clk : Clock) (min_score : R)
    (rows : list BoxRow) :
  ∀ recs, recommend_loop s clk min_score rows = Ok recs →
    Forall (λ e, ∃ row score,
                   row ∈ rows ∧ rec_box_id e = n_boite row
                   ∧ rec_address e = adresse row
                   ∧ calculate_profitability_score s clk (n_boite row)
                     = Ok score
                   ∧ score >= min_score
                   ∧ rec_profitability_score e = py_round1 score) recs
    ∧ ∀ row score, row ∈ rows →
        calculate_profitability_score s clk (n_boite row) = Ok score →
        score >= min_score → n_boite row ∈ map rec_box_id recs.
Proof.
  induction rows as [|box rest IH]; intros recs Hrecs.
  - injection Hrecs as <-. split; [constructor|].
    intros row score Hrow. by apply elem_of_nil in Hrow.
  - cbn [recommend_loop] in Hrecs.
    destruct (calculate_profitability_score s clk (n_boite box))
      as [p|] eqn:Hp; [|done].
    destruct (calculate_days_since_last_visit s clk (n_boite box))
      as [d|] eqn:Hd; [|done].
    simpl in Hrecs. destruct (Rge_dec p min_score) as [Hge|Hlt].
    + destruct (calculate_equity_score s clk (n_boite box)) as [e|]; [|done].
      simpl in Hrecs.
      destruct (recommend_loop s clk min_score rest) as [tail|]; [|done].
      injection Hrecs as <-. destruct (IH tail eq_refl) as [IH1 IH2]. split.
      * constructor.
        -- exists box, p. simpl.
           repeat split; try done. apply list_elem_of_here.
        -- eapply Forall_impl; [exact IH1|]. simpl.
           intros e0 (row & sc & Hin & Hrest). exists row, sc.
           split; [by apply list_elem_of_further|exact Hrest].
      * intros row score Hrow Hsc Hmin. cbn [map rec_box_id].
        apply elem_of_cons in Hrow as [->|Hrow];
          [apply list_elem_of_here|].
        apply list_elem_of_further. by eapply IH2.
    + destruct (IH recs Hrecs) as [IH1 IH2]. split.
      * eapply Forall_impl; [exact IH1|]. simpl.
        intros e0 (row & sc & Hin & Hrest). exists row, sc.
        split; [by apply list_elem_of_further|exact Hrest].
      * intros row score Hrow Hsc Hmin.
        apply elem_of_cons in Hrow as [->|Hrow]; [|by eapply IH2].
        rewrite Hp in Hsc. injection Hsc as <-. done.
Qed.

(** X19: when [get_recommended_boxes] returns a list, the list is in
    decreasing order of its (rounded) scores, it has at most [max_boxes]
    entries when [max_boxes] is not negative, and every entry is a box of
    the catalog whose profitability read is at least [min_score], reported
    rounded to one decimal. *)
Theorem recommendations_sound (s : Optimizer) (clk : Clock) (max_boxes : Z)
    (min_score : R) (l : list Recommendation) :
  get_recommended_boxes s clk max_boxes min_score = Ok l →
  StronglySorted
    (λ a b, rec_profitability_score b <= rec_profitability_score a) l
  ∧ ((0 ≤ max_boxes)%Z → (length l ≤ Z.to_nat max_boxes)%nat)
  ∧ ∀ e, e ∈ l →
      in_catalog s (rec_box_id e) = true
      ∧ ∃ score, calculate_profitability_score s clk (rec_box_id e)
                 = Ok score
                 ∧ score >= min_score
                 ∧ rec_profitability_score e = py_round1 score.
Proof.
  unfold get_recommended_boxes. intros Hget.
  destruct (recommend_loop s clk min_score (df s)) as [recs|] eqn:Hrecs;
    [|done].
  injection Hget as <-.
  destruct (slice_to_take (sort_by_score recs) max_boxes) as (k & -> & Hk).
  destruct (recommend_loop_entries s clk min_score (df s) recs Hrecs)
    as [Hall _].
  split; [|split].
  - apply (StronglySorted_app_1_l _ _ (drop k (sort_by_score recs))).
    rewrite take_drop. apply sort_by_score_sorted.
  - intros Hmax. rewrite (Hk Hmax). apply firstn_le_length.
  - intros e He.
    assert (Hin : e ∈ recs).
    { rewrite <- (sort_by_score_perm recs).
      eapply elem_of_prefix; [exact He|apply prefix_take]. }
    rewrite Forall_forall in Hall.
    destruct (Hall e Hin) as (row & score & Hrow & -> & _ & Hsc & Hmin & Hr).
    split; [|eauto].
    unfold in_catalog. apply bool_decide_eq_true.
    apply list_elem_of_fmap. eauto.
Qed.

(** A ledger without [None] values for the rows makes every read of the
    loop return. *)
Lemma recommend_loop_returns (s : Optimizer) (clk : Clock) (min_score : R)
    (rows : list BoxRow) :
  Forall (λ r, last_visit s !! n_boite r ≠ Some None) rows →
  ∃ recs, recommend_loop s clk min_score rows = Ok recs.
Proof.
  induction 1 as [|box rest Hb _ [tail IH]]; [by exists []|].
  cbn [recommend_loop].
  assert (Hd : ∃ d, calculate_days_since_last_visit s clk (n_boite box)
                    = Ok d).
  { unfold calculate_days_since_last_visit.
    destruct (last_visit s !! n_boite box) as [[lv|]|]; [|done|eauto].
    destruct (tzinfo lv); eauto. }
  destruct Hd as [d Hd].
  assert (Hp : ∃ p, calculate_profitability_score s clk (n_boite box)
                    = Ok p).
  { unfold calculate_profitability_score, compute_profitability.
    rewrite (urgency_of_days_eq _ _ _ _ Hd), (equity_of_days_eq _ _ _ _ Hd).
    destruct (_cache_valid s), (_score_cache s !! n_boite box); eauto. }
  destruct Hp as [p ->]. rewrite Hd. simpl.
  destruct (Rge_dec p min_score); [|eauto].
  rewrite (equity_of_days_eq _ _ _ _ Hd), IH. simpl. eauto.
Qed.

Lemma ex_visited_ledger (r : BoxRow) :
  last_visit ex_visited !! n_boite r ≠ Some None.
Proof.
  unfold ex_visited. simpl. intros H.
  apply lookup_insert_Some in H as [[_ ?]|[_ H]]; [done|].
  by rewrite lookup_empty in H.
Qed.

Lemma recommendations_sound_witness :
  ∃ l, get_recommended_boxes ex_visited (ex_clock 10) 20 30.0 = Ok l
       ∧ (length l ≤ 20)%nat
       ∧ StronglySorted
           (λ a b, rec_profitability_score b <= rec_profitability_score a) l.
Proof.
  destruct (recommend_loop_returns ex_visited (ex_clock 10) 30.0
              (df ex_visited)) as [recs Hrecs].
  { apply Forall_forall. intros r _. apply ex_visited_ledger. }
  exists (slice_to (sort_by_score recs) 20).
  assert (Hget : get_recommended_boxes ex_visited (ex_clock 10) 20 30.0
                 = Ok (slice_to (sort_by_score recs) 20)).
  { unfold get_recommended_boxes. by rewrite Hrecs. }
  destruct (recommendations_sound ex_visited (ex_clock 10) 20 30.0 _ Hget)
    as (H1 & H2 & _).
  split; [exact Hget|]. split; [apply H2; lia|exact H1].
Defined.



End Recommendations.

(** ** The web layer *)

Lemma mark_visit_ledger (s : Optimizer) (clk : Clock) (id : Z)
    (level : option R) :
  ∃ s', mark_visit s clk id level = Ok s'
        ∧ last_visit s'
          = <[id := Some (datetime_now clk)]> (last_visit s)
        ∧ df s' = df s.
Proof.
  destruct (mark_visit_ok s clk id level) as [b ->]. by eexists.
Qed.

(** X21: the route [/api/add-box] answers 500 for a complete request whose
    id is new to the catalog and to the ledger, although the box has been
    added to the catalog in memory; nothing is written to the state file,
    and the same request sent again is refused as a duplicate with the
    optimizer unchanged. *)
Theorem api_add_box_new_id (s : Optimizer) (fs : gmap string StateFile)
    (bd : BoxData) (id : Z) :
  data_n_boite bd = Some id →
  is_Some (data_adresse bd) → is_Some (data_commune bd) →
  is_Some (data_cp bd) → is_Some (data_conteneur bd) →
  is_Some (data_volume_moyen bd) →
  in_catalog s id = false →
  last_visit s !! id = None →
  ∃ s', api_add_box s fs bd = (500%Z, s', fs)
        ∧ in_catalog s' id = true
        ∧ api_add_box s' fs bd = (500%Z, s', fs).
Proof.
  intros Hid Ha Hc Hp Hk Hv Hcat Hlv.
  destruct (add_box_ok s bd id Hid Ha Hc Hp Hk Hv Hcat)
    as (s' & Hadd & Hin & Hlv' & _).
  assert (Hnone : last_visit s' !! id = Some None).
  { rewrite Hlv', Hlv. apply lookup_insert_eq. }
  destruct Ha as [a Ha], Hc as [c Hc], Hp as [p Hp], Hk as [k Hk],
           Hv as [v Hv].
  assert (Hdup : add_box s' bd = (false, s')).
  { unfold add_box. by rewrite Hid, Ha, Hc, Hp, Hk, Hv, Hin. }
  exists s'. unfold api_add_box.
  rewrite Hid, Ha, Hc, Hp, Hk, Hv, Hadd, Hdup.
  by rewrite (save_state_none_value_raises s' state_filename fs id Hnone).
Qed.

Lemma api_add_box_new_id_witness :
  ∃ s', api_add_box ex_visited ∅ ex_box_data = (500%Z, s', ∅)
        ∧ in_catalog s' 7 = true.
Proof.
  destruct (api_add_box_new_id ex_visited ∅ ex_box_data 7)
    as (s' & H1 & H2 & _).
  1, 7, 8: reflexivity.
  1-5: simpl; eauto.
  by exists s'.
Defined.

(** X22: the route [/api/visit] answers 400 without touching anything when
    the request has no [box_id].  Otherwise the visit is always recorded in
    memory, for an id of the catalog or not; the answer is 200 and the
    ledger is saved when every other ledger value is a timestamp, and it is
    500 with the file untouched when another box is bound to [None]. *)
Theorem api_mark_visit_outcomes (s : Optimizer) (fs : gmap string StateFile)
    (clk : Clock) (id : Z) (level : option R) :
  api_mark_visit s fs clk None level = (400%Z, s, fs)
  ∧ ((∀ k v, k ≠ id → last_visit s !! k = Some v → is_Some v) →
     ∃ s' fs', api_mark_visit s fs clk (Some id) level = (200%Z, s', fs')
               ∧ mark_visit s clk id level = Ok s'
               ∧ last_visit (load_state s' state_filename fs') !! id
                 = Some (Some (fromisoformat (isoformat (datetime_now clk)))))
  ∧ (∀ k, k ≠ id → last_visit s !! k = Some None →
     ∃ s', api_mark_visit s fs clk (Some id) level = (500%Z, s', fs)
           ∧ mark_visit s clk id level = Ok s').
Proof.
  split; [done|].
  destruct (mark_visit_ledger s clk id level) as (s' & Hm & Hlv & _).
  split.
  - intros Hclean.
    destruct (save_load_state s' s' state_filename fs) as (fs' & Hs & Hl).
    { intros k v. rewrite Hlv. intros Hk.
      apply lookup_insert_Some in Hk as [[_ <-]|[Hne Hk]]; [eauto|].
      eapply Hclean; [|exact Hk]. done. }
    exists s', fs'. unfold api_mark_visit. rewrite Hm, Hs.
    split; [done|]. split; [done|].
    rewrite Hl. cbn [last_visit set_visit_history set_last_visit].
    rewrite lookup_fmap, Hlv, lookup_insert_eq. reflexivity.
  - intros k Hne Hk. exists s'. unfold api_mark_visit. rewrite Hm.
    rewrite (save_state_none_value_raises s' state_filename fs k); [done|].
    rewrite Hlv. by rewrite lookup_insert_ne.
Qed.

Lemma api_mark_visit_outcomes_witness :
  (∃ s' fs', api_mark_visit ex_visited ∅ (ex_clock 3) (Some 99%Z) None
             = (200%Z, s', fs'))
  ∧ ∃ s', api_mark_visit ex_added ∅ (ex_clock 3) (Some 1%Z) None
          = (500%Z, s', ∅).
Proof.
  split.
  - destruct (api_mark_visit_outcomes ex_visited ∅ (ex_clock 3) 99 None)
      as (_ & H & _).
    destruct H as (s' & fs' & H & _); [|by exists s', fs'].
    intros k v _ Hk. unfold ex_visited in Hk. simpl in Hk.
    apply lookup_insert_Some in Hk as [[_ <-]|[_ Hk]]; [eauto|].
    by rewrite lookup_empty in Hk.
  - destruct (api_mark_visit_outcomes ex_added ∅ (ex_clock 3) 1 None)
      as (_ & _ & H).
    destruct (H 7%Z) as (s' & H' & _); [done|reflexivity|by exists s'].
Defined.

(** X23: the route [/api/reset-visits] always answers 200; afterwards the
    ledger is empty, the cache is dropped, the catalog is as before, the
    state file holds two empty objects, and every box scores 8.0 for
    equity again. *)
Theorem api_reset_visits_result (s : Optimizer) (fs : gmap string StateFile)
    (clk : Clock) :
  ∃ s' fs',
    api_reset_visits s fs = (200%Z, s', fs')
    ∧ df s' = df s
    ∧ last_visit s' = ∅ ∧ visit_history s' = ∅
    ∧ _cache_valid s' = false ∧ _score_cache s' = ∅
    ∧ fs' !! state_filename
      = Some {| f_last_visit := []; f_visit_history := [] |}
    ∧ ∀ id, calculate_equity_score s' clk id = Ok 8.0%R.
Proof.
  unfold api_reset_visits, save_state.
  cbn [last_visit visit_history timezone invalidate_cache set_cache
       set_visit_history set_last_visit].
  rewrite !map_to_list_empty. simpl.
  eexists _, _. split; [reflexivity|]. simpl.
  do 5 (split; [done|]). split; [apply lookup_insert_eq|].
  intros id. unfold calculate_equity_score, calculate_days_since_last_visit.
  simpl. by rewrite lookup_empty.
Qed.

(** X24: the routes [/api/remove-box] and [/api/update-box] answer 404 for
    an id that is not in the catalog and change neither the optimizer nor
    the file, while [/api/box] answers with no details ([None], sent as
    404) for such an id. *)
Theorem api_unknown_box (s : Optimizer) (fs : gmap string StateFile)
    (clk : Clock) (id : Z) (bu : BoxUpdate) :
  in_catalog s id = false →
  api_remove_box s fs id = (404%Z, s, fs)
  ∧ api_update_box s fs id bu = (404%Z, s, fs)
  ∧ get_box_details s clk id = Ok None.
Proof.
  intros Hcat. unfold api_remove_box, api_update_box, remove_box, update_box,
    get_box_details.
  by rewrite Hcat, (box_rows_absent s id Hcat).
Qed.

Lemma api_unknown_box_witness :
  api_remove_box ex_visited ∅ 99 = (404%Z, ex_visited, ∅)
  ∧ api_update_box ex_visited ∅ 99 ex_box_update = (404%Z, ex_visited, ∅)
  ∧ get_box_details ex_visited (ex_clock 3) 99 = Ok None.
Proof.
  apply (api_unknown_box ex_visited ∅ (ex_clock 3) 99 ex_box_update).
  reflexivity.
Defined.

(** ** Detail lookup and the test script *)

Lemma omap_length_le {A B : Type} (f : A → option B) (l : list A) :
  length (omap f l) ≤ length l.
Proof.
  induction l as [|x l IH]; [done|].
  cbn [omap list_omap]. destruct (f x); simpl; lia.
Qed.

(** X25: for a box of the catalog whose ledger value is not [None],
    [get_box_details] returns a record for that id with the fields of its
    first row, the history the ledger holds for it (empty when there is
    none) and at most eight recent weeks. *)
Theorem get_box_details_present (s : Optimizer) (clk : Clock) (id : Z) :
  in_catalog s id = true →
  last_visit s !! id ≠ Some None →
  ∃ d row rest,
    get_box_details s clk id = Ok (Some d)
    ∧ box_rows s id = row :: rest
    ∧ details_box_id d = id
    ∧ details_address d = adresse row
    ∧ details_container_type d = conteneur row
    ∧ details_visit_history d = default [] (visit_history s !! id)
    ∧ calculate_days_since_last_visit s clk id
      = Ok (details_days_since_last_visit d)
    ∧ (length (details_recent_history d) ≤ 8)%nat.
Proof.
  intros Hcat Hlv.
  destruct (box_rows_present s id Hcat) as (row & rest & Hrows & _).
  assert (Hd : ∃ days, calculate_days_since_last_visit s clk id = Ok days).
  { unfold calculate_days_since_last_visit.
    destruct (last_visit s !! id) as [[lv|]|]; [|done|eauto].
    destruct (tzinfo lv); eauto. }
  destruct Hd as [days Hd].
  assert (Hp : ∃ p, calculate_profitability_score s clk id = Ok p).
  { unfold calculate_profitability_score, compute_profitability.
    rewrite (urgency_of_days_eq _ _ _ _ Hd), (equity_of_days_eq _ _ _ _ Hd).
    destruct (_cache_valid s), (_score_cache s !! id); eauto. }
  destruct Hp as [p Hp].
  unfold get_box_details. rewrite Hrows, Hp, Hd.
  eexists _, row, rest. split; [reflexivity|]. simpl.
  do 6 (split; [done|]).
  unfold recent_history.
  etrans; [apply omap_length_le|]. by rewrite length_seqZ.
Qed.

Lemma get_box_details_present_witness :
  ∃ d, get_box_details ex_visited (ex_clock 10) 1 = Ok (Some d)
       ∧ details_box_id d = 1%Z
       ∧ details_days_since_last_visit d = Some 10%Z.
Proof.
  destruct (get_box_details_present ex_visited (ex_clock 10) 1)
    as (d & row & rest & H1 & _ & H2 & _ & _ & _ & H3 & _).
  - reflexivity.
  - apply (ex_visited_ledger ex_box1).
  - exists d. split; [exact H1|]. split; [exact H2|].
    rewrite (ex_days_since 10 ltac:(lia)) in H3. by injection H3 as <-.
Defined.

(** X26: [test_scoring_algorithm] fails on every optimizer whose first box
    has never been visited (the comparison of [None] with 0 raises), and
    when it passes every checked box has a visit on record that is not in
    the future and a profitability read in [[0, 100]]. *)
Theorem test_scoring_algorithm_needs_visits (s : Optimizer) (clk : Clock) :
  (∀ r rest, df s = r :: rest → last_visit s !! n_boite r = None →
             test_scoring_algorithm s clk = false)
  ∧ (test_scoring_algorithm s clk = true →
     ∀ id, id ∈ take 5 (map n_boite (df s)) →
       ∃ d score, calculate_days_since_last_visit s clk id = Ok (Some d)
                  ∧ (0 ≤ d)%Z
                  ∧ calculate_profitability_score s clk id = Ok score
                  ∧ (0 <= score <= 100)%R).
Proof.
  unfold test_scoring_algorithm. split.
  - intros r rest -> Hlv. cbn [map take scoring_checks].
    rewrite (days_since_never s clk _ Hlv).
    destruct (calculate_profitability_score s clk (n_boite r)) as [p|];
      [|done].
    cbv zeta. destruct (chained_le 0 p 100); cbn [negb]; [|done].
    by destruct (chained_le 0 _ 10).
  - induction (take 5 (map n_boite (df s))) as [|i l IH]; intros Ht id Hid.
    { by apply elem_of_nil in Hid. }
    cbn [scoring_checks] in Ht.
    destruct (calculate_profitability_score s clk i) as [p|] eqn:Hp; [|done].
    destruct (calculate_days_since_last_visit s clk i) as [days|] eqn:Hd;
      [|done].
    cbv zeta in Ht. unfold chained_le in Ht at 1.
    destruct (Rle_dec 0 p); [|done]. destruct (Rle_dec p 100); [|done].
    cbn [negb] in Ht. destruct (chained_le 0 _ 10); [|done].
    cbn [negb] in Ht. destruct days as [d|]; [|done].
    destruct (Z.ltb_spec d 0); [done|].
    apply elem_of_cons in Hid as [->|Hid]; [|by apply IH].
    exists d, p. by repeat split.
Qed.

Lemma test_scoring_algorithm_needs_visits_witness :
  test_scoring_algorithm ex_fresh (ex_clock 0) = false.
Proof.
  destruct (test_scoring_algorithm_needs_visits ex_fresh (ex_clock 0))
    as [H _].
  apply (H ex_box1 [ex_box2]); reflexivity.
Defined.

(** ** Days since the last visit *)

(** X27: for a visited box the day count is the floor of the elapsed time
    in days, the elapsed time being taken between the two instants (wall
    clock minus UTC offset, the optimizer's timezone standing in for a
    naive timestamp).  A visit dated after the clock reading, by however
    little, counts as a negative number of days. *)
Theorem days_since_is_floor (s : Optimizer) (clk : Clock) (id : Z)
    (lv : datetime) :
  last_visit s !! id = Some (Some lv) →
  ∃ d, calculate_days_since_last_visit s clk id = Ok (Some d)
       ∧ let offset := match tzinfo lv with
                       | Some tz => utcoffset tz
                       | None => utcoffset (timezone s)
                       end in
         let elapsed := ((clk_wall_us clk - clk_utcoffset clk)
                         - (wall_us lv - offset))%Z in
         (d * us_per_day ≤ elapsed < (d + 1) * us_per_day)%Z
         ∧ ((0 ≤ elapsed)%Z ↔ (0 ≤ d)%Z).
Proof.
  intros Hlv. unfold calculate_days_since_last_visit. rewrite Hlv.
  assert (Hfloor : ∀ e, (e `div` us_per_day * us_per_day ≤ e
                         < (e `div` us_per_day + 1) * us_per_day)%Z
                        ∧ ((0 ≤ e)%Z ↔ (0 ≤ e `div` us_per_day)%Z)).
  { intros e. unfold us_per_day.
    pose proof (Z.div_mod e (86400 * 1000000) ltac:(lia)).
    pose proof (Z.mod_pos_bound e (86400 * 1000000) ltac:(lia)).
    split; [lia|]. split; intros; [apply Z.div_pos; lia|nia]. }
  destruct (tzinfo lv) as [tz|]; eexists; (split; [reflexivity|]);
    cbv zeta; unfold timedelta_days; cbn [wall_us replace_tzinfo];
    apply Hfloor.
Qed.

Lemma days_since_is_floor_witness :
  ∃ d, calculate_days_since_last_visit ex_visited (ex_clock 10) 1
       = Ok (Some d)
       ∧ ((0 ≤ 10 * us_per_day)%Z ↔ (0 ≤ d)%Z).
Proof.
  destruct (days_since_is_floor ex_visited (ex_clock 10) 1 ex_visit_time)
    as (d & H1 & _ & H2).
  - reflexivity.
  - exists d. split; [exact H1|].
    cbv zeta in H2. simpl in H2.
    replace (10 * us_per_day + 3600000000 - 3600000000 - (0 - 3600000000))%Z
      with (10 * us_per_day + 3600000000)%Z in H2 by lia.
    unfold us_per_day in *. split; intros; [apply H2; lia|lia].
Defined.
